(** * DocuFlow: the embedding / answer wrapper and the upload tester

    A shallow embedding of [vectorizer.py] (class [Vectorizer]) and of
    [test_api.py], with the properties the specification states about them.

    Python values are dynamically typed, and the code under study branches on
    the run-time shape of what the embedding and generation services return
    ([hasattr], [isinstance], truth values).  The embedding therefore starts
    with a small universe of Python values and the built-ins the code applies
    to them; the methods of the source follow, each one written statement by
    statement after its Python text. *)

From Stdlib Require Import String Ascii List ZArith Lia Bool.
From Stdlib Require Import DecimalString SpecFloat.
Import ListNotations.

Local Open Scope string_scope.
Local Open Scope Z_scope.

(* ===================================================================== *)
(** * Python values *)
(* ===================================================================== *)

Module Py.

(** What a class instance offers to [iter], [len] and indexing:
    nothing, iteration only (a generator, a stream), or the sequence
    protocol (a repeated field of a response message, an array). *)
Inductive collection (A : Type) : Type :=
| NotIterable
| Iterable (items : list A)
| Sequence (items : list A).
Arguments NotIterable {A}.
Arguments Iterable {A} items.
Arguments Sequence {A} items.

#[local] Set Warnings "-register-all".

(** A Python [str] is a [string], one [ascii] per character (code points
    below 256).  An [int] is taken within the limit Python puts on its
    conversion to text (4300 digits unless configured otherwise).  A [dict]
    is its list of items in insertion order; the keys of every dict the code
    reads are strings.  A class instance is its class, named as [type]
    prints it, by module and qualified name ([pkg.mod.Cls]), its data
    attributes and its collection protocol; [VMethod] is a bound method of a
    built-in type, such as [d.values] for a dict [d]. *)
Inductive value : Type :=
| VNone
| VBool (b : bool)
| VInt (n : Z)
| VFloat (f : spec_float)
| VStr (s : string)
| VList (xs : list value)
| VTuple (xs : list value)
| VDict (items : list (string * value))
| VMethod (owner name : string)
| VObj (cls : string) (attrs : list (string * value)) (coll : collection value).

Definition dict : Type := list (string * value).

(** An exception: the name of its class and its message ([str(e)]).  The
    classes of [requests.exceptions], which the upload tester tells apart,
    go by their qualified names. *)
Record exception : Type := Raise { exc_class : string; exc_message : string }.

Definition ValueError (msg : string) : exception := Raise "ValueError" msg.
Definition TypeError (msg : string) : exception := Raise "TypeError" msg.
Definition AttributeError (msg : string) : exception := Raise "AttributeError" msg.
Definition KeyError (msg : string) : exception := Raise "KeyError" msg.

(** The outcome of an expression: an exception raised, or a value. *)
Definition result (A : Type) : Type := (exception + A)%type.
Definition ok {A} (a : A) : result A := inr a.
Definition raise {A} (e : exception) : result A := inl e.

Definition rbind {A B} (m : result A) (k : A -> result B) : result B :=
  match m with
  | inl e => inl e
  | inr a => k a
  end.

(** ** Strings *)

(** [sep.join(parts)] on a list of strings. *)
Definition join (sep : string) (parts : list string) : string :=
  String.concat sep parts.

(** [str.isspace] on one character: the white space of Unicode below 256. *)
Definition is_space (c : ascii) : bool :=
  let n := nat_of_ascii c in
  ((9 <=? n) && (n <=? 13) || (28 <=? n) && (n <=? 32)
   || (n =? 133) || (n =? 160))%nat.

Fixpoint lstrip_chars (cs : list ascii) : list ascii :=
  match cs with
  | [] => []
  | c :: cs' => if is_space c then lstrip_chars cs' else cs
  end.

(** [s.strip()]. *)
Definition strip (s : string) : string :=
  string_of_list_ascii
    (rev (lstrip_chars (rev (lstrip_chars (list_ascii_of_string s))))).

(** [s.lower()], character by character: the capital letters below 256 are
    A to Z and the accented capitals 192 to 222 without the multiplication
    sign 215; the small letter is 32 further. *)
Definition lower_char (c : ascii) : ascii :=
  let n := nat_of_ascii c in
  if ((65 <=? n) && (n <=? 90) || (192 <=? n) && (n <=? 222) && negb (n =? 215))%nat
  then ascii_of_nat (n + 32)
  else c.

Fixpoint lower (s : string) : string :=
  match s with
  | EmptyString => EmptyString
  | String c s' => String (lower_char c) (lower s')
  end.

(** The line feed, [\n] in a Python literal. *)
Definition nl : string := String (ascii_of_nat 10) EmptyString.

(** [s[:n]]. *)
Definition prefix (n : nat) (s : string) : string := substring 0 n s.

(** [str(n)] for an [int] within the limit of the conversion. *)
Definition str_of_int (n : Z) : string := NilZero.string_of_int (Z.to_int n).

Definition str_of_nat (n : nat) : string := str_of_int (Z.of_nat n).

(** ** Dictionaries *)

Fixpoint lookup (k : string) (d : dict) : option value :=
  match d with
  | [] => None
  | (k', v) :: d' => if String.eqb k k' then Some v else lookup k d'
  end.

(** [d.get(k)] is [None] for a missing key, [d.get(k, default)] is
    [default]. *)
Definition get (d : dict) (k : string) : value :=
  match lookup k d with Some v => v | None => VNone end.

Definition get_default (d : dict) (k : string) (default : value) : value :=
  match lookup k d with Some v => v | None => default end.

(** [d[k]]: [KeyError] for a missing key. *)
Definition item (d : dict) (k : string) : result value :=
  match lookup k d with
  | Some v => ok v
  | None => raise (KeyError ("'" ++ k ++ "'"))
  end.

(** The dict without the key [k]. *)
Definition remove (k : string) (d : dict) : dict :=
  filter (fun kv => negb (String.eqb k (fst kv))) d.

Definition has_key (k : string) (d : dict) : bool :=
  match lookup k d with Some _ => true | None => false end.

(** ** Types, truth values, attributes *)

(** The last component of a dotted name: [Cls] for [pkg.mod.Cls].  [name]
    is what follows the last dot met so far, [rest] what is left to read. *)
Fixpoint class_name_from (name rest : string) : string :=
  match rest with
  | EmptyString => name
  | String c rest' =>
      if Ascii.eqb c "." then class_name_from rest' rest'
      else class_name_from name rest'
  end.

Definition class_name (cls : string) : string := class_name_from cls cls.

(** [type(v).__name__], the name the messages of the run time quote. *)
Definition type_name (v : value) : string :=
  match v with
  | VNone => "NoneType"
  | VBool _ => "bool"
  | VInt _ => "int"
  | VFloat _ => "float"
  | VStr _ => "str"
  | VList _ => "list"
  | VTuple _ => "tuple"
  | VDict _ => "dict"
  | VMethod _ _ => "builtin_function_or_method"
  | VObj cls _ _ => class_name cls
  end.

(** The name [type(v)] prints: the bare name for a built-in type, the
    module and the qualified name for a class. *)
Definition type_qualified_name (v : value) : string :=
  match v with
  | VObj cls _ _ => cls
  | _ => type_name v
  end.

(** [str(type(v))], as an f-string renders [{type(v)}]. *)
Definition type_repr (v : value) : string :=
  "<class '" ++ type_qualified_name v ++ "'>".

(** [v.get(key, default)] and [v.items()] as method calls on a value: only
    a dict has the methods. *)
Definition call_get (v : value) (key : string) (default : value) : result value :=
  match v with
  | VDict d => ok (get_default d key default)
  | _ => raise (AttributeError ("'" ++ type_name v ++ "' object has no attribute 'get'"))
  end.

Definition call_items (v : value) : result dict :=
  match v with
  | VDict d => ok d
  | _ => raise (AttributeError ("'" ++ type_name v ++ "' object has no attribute 'items'"))
  end.

Definition isinstance_dict (v : value) : bool :=
  match v with VDict _ => true | _ => false end.
Definition isinstance_list (v : value) : bool :=
  match v with VList _ => true | _ => false end.
Definition isinstance_str (v : value) : bool :=
  match v with VStr _ => true | _ => false end.

Definition float_is_zero (f : spec_float) : bool :=
  match f with S754_zero _ => true | _ => false end.

Definition nonempty {A} (l : list A) : bool :=
  match l with [] => false | _ => true end.

(** [bool(v)]: [None], [False], zero and empty containers are false; an
    instance of a class with [__len__] is false when empty, any other
    instance is true. *)
Definition truthy (v : value) : bool :=
  match v with
  | VNone => false
  | VBool b => b
  | VInt n => negb (n =? 0)
  | VFloat f => negb (float_is_zero f)
  | VStr s => negb (String.eqb s "")
  | VList xs => nonempty xs
  | VTuple xs => nonempty xs
  | VDict d => nonempty d
  | VMethod _ _ => true
  | VObj _ _ (Sequence xs) => nonempty xs
  | VObj _ _ _ => true
  end.

(** What [iter(v)] yields, when [v] is iterable: the elements of a list or
    tuple, the characters of a string, the keys of a dict, the items of an
    iterable instance. *)
Definition iter_items (v : value) : option (list value) :=
  match v with
  | VList xs => Some xs
  | VTuple xs => Some xs
  | VStr s => Some (map (fun c => VStr (String c EmptyString)) (list_ascii_of_string s))
  | VDict d => Some (map (fun kv => VStr (fst kv)) d)
  | VObj _ _ (Iterable xs) => Some xs
  | VObj _ _ (Sequence xs) => Some xs
  | _ => None
  end.

(** [getattr(v, name)], where it exists.  Of the attribute names the source
    probes ([embedding], [values], [__iter__], [text], [candidates],
    [finish_reason], [content], [parts], [prompt_feedback], [block_reason])
    the built-in types provide two: [values] on a dict, a bound method, and
    [__iter__] on every iterable. *)
Definition getattr (v : value) (name : string) : option value :=
  if String.eqb name "__iter__" then
    match iter_items v with
    | Some _ => Some (VMethod (type_name v) "__iter__")
    | None => None
    end
  else
    match v with
    | VObj _ attrs _ => lookup name attrs
    | VDict _ => if String.eqb name "values" then Some (VMethod "dict" "values") else None
    | _ => None
    end.

Definition hasattr (v : value) (name : string) : bool :=
  match getattr v name with Some _ => true | None => false end.

(** [v.name] as an expression: [AttributeError] when the attribute is
    missing. *)
Definition attr (v : value) (name : string) : result value :=
  match getattr v name with
  | Some a => ok a
  | None => raise (AttributeError ("'" ++ type_name v ++ "' object has no attribute '" ++ name ++ "'"))
  end.

(** [len(v)]. *)
Definition len (v : value) : result nat :=
  match v with
  | VStr s => ok (String.length s)
  | VList xs => ok (List.length xs)
  | VTuple xs => ok (List.length xs)
  | VDict d => ok (List.length d)
  | VObj _ _ (Sequence xs) => ok (List.length xs)
  | _ => raise (TypeError ("object of type '" ++ type_name v ++ "' has no len()"))
  end.

(** [list(v)] and [for x in v]: the items, or [TypeError]. *)
Definition iterate (v : value) : result (list value) :=
  match iter_items v with
  | Some xs => ok xs
  | None => raise (TypeError ("'" ++ type_name v ++ "' object is not iterable"))
  end.

(** [v[0]]. *)
Definition first_item (v : value) : result value :=
  match v with
  | VList (x :: _) | VTuple (x :: _) | VObj _ _ (Sequence (x :: _)) => ok x
  | VList [] => raise (Raise "IndexError" "list index out of range")
  | VTuple [] => raise (Raise "IndexError" "tuple index out of range")
  | VObj _ _ (Sequence []) => raise (Raise "IndexError" "index out of range")
  | VStr (String c _) => ok (VStr (String c EmptyString))
  | VStr EmptyString => raise (Raise "IndexError" "string index out of range")
  | VDict _ => raise (KeyError "0")
  | _ => raise (TypeError ("'" ++ type_name v ++ "' object is not subscriptable"))
  end.

(** ** Formatting *)

Section Formatting.

(** [str(v)] of a float, a container, a bound method or a class instance is
    the run time's or the class's business (shortest round-trip digits,
    [repr] of the elements, [__str__]); the code is parametric in it. *)
Variable str_other : value -> string.

(** [str(v)], which is also how an f-string renders [{v}]. *)
Definition str (v : value) : string :=
  match v with
  | VNone => "None"
  | VBool true => "True"
  | VBool false => "False"
  | VInt n => str_of_int n
  | VStr s => s
  | _ => str_other v
  end.

End Formatting.

(** [x <- m ;; k]: evaluate [m]; an exception ends the evaluation. *)
Module Notations.
Notation "x <- m ;; k" := (rbind m (fun x => k))
  (at level 61, m at next level, right associativity).
End Notations.

End Py.

(* ===================================================================== *)
(** * Effects: a trace of events next to the outcome *)
(* ===================================================================== *)

Module Eff.
Import Py.

(** A computation that emits events of type [E] (calls to a service, lines
    printed) and ends in a value or an exception.  The events emitted before
    an exception stay in the trace. *)
Definition eff (E A : Type) : Type := (list E * result A)%type.

Definition pure {E A} (a : A) : eff E A := ([], ok a).
Definition throw {E A} (e : exception) : eff E A := ([], raise e).
Definition lift {E A} (m : result A) : eff E A := ([], m).
Definition emit {E} (ev : E) : eff E unit := ([ev], ok tt).

Definition bind {E A B} (m : eff E A) (k : A -> eff E B) : eff E B :=
  match m with
  | (t, inl e) => (t, inl e)
  | (t, inr a) => let (t', r) := k a in ((t ++ t')%list, r)
  end.

(** [try: m  except Exception as e: h e]. *)
Definition try_except {E A} (m : eff E A) (h : exception -> eff E A) : eff E A :=
  match m with
  | (t, inl e) => let (t', r) := h e in ((t ++ t')%list, r)
  | (t, inr a) => (t, inr a)
  end.

Definition trace {E A} (m : eff E A) : list E := fst m.
Definition outcome {E A} (m : eff E A) : result A := snd m.

Module Notations.
Notation "x <~ m ;; k" := (bind m (fun x => k))
  (at level 61, m at next level, right associativity).
End Notations.

End Eff.

(* ===================================================================== *)
(** * vectorizer.py *)
(* ===================================================================== *)

(** The methods of [class Vectorizer].  Each is the body of its [try]
    block; the handler around it logs the exception and raises it again, so
    the outcome is that of the body.  The calls to [logger] are left out:
    they change neither what a method returns nor what it raises, except
    that a logged f-string is evaluated, which matters for the
    [len(embedding)] of the two vectorising methods.  Attributes of the
    responses are data: reading one that exists does not raise. *)
Module Vectorizer.
Import Py Py.Notations Eff Eff.Notations.

(** [config.Config]: the settings the class reads.  The keys are a string or
    [None]. *)
Record Config : Type := {
  GEMINI_API_KEY : value;
  VERTEX_AI : value;
  EMBEDDING_MODEL : string;
  GEMINI_GENERATION_MODEL : string
}.

(** A generative model object, as [genai.GenerativeModel(name)] returns it. *)
Definition handle : Type := string.

(** The [google.generativeai] client: what each of its entry points answers.
    Every entry point may raise. *)
Record genai : Type := {
  embed_content : string -> string -> string -> result value;
  GenerativeModel : string -> result handle;
  generate_content : handle -> string -> result value
}.

(** The calls made to the client, in order. *)
Inductive call : Type :=
| Configure (api_key : value)
| EmbedContent (model content task_type : string)
| NewModel (model_name : string)
| GenerateContent (model : handle) (prompt : string).

(** [self]. *)
Record Vectorizer : Type := { model : string }.

Section Methods.

Variable str_other : value -> string.
Variable config : Config.
Variable service : genai.

Local Abbreviation str := (Py.str str_other).

Definition call_embed_content (m content task_type : string) : eff call value :=
  ([EmbedContent m content task_type], embed_content service m content task_type).

Definition call_GenerativeModel (name : string) : eff call handle :=
  ([NewModel name], GenerativeModel service name).

Definition call_generate_content (m : handle) (prompt : string) : eff call value :=
  ([GenerateContent m prompt], generate_content service m prompt).

(** [__init__]. *)
Definition init : eff call Vectorizer :=
  let api_key :=
    if truthy (GEMINI_API_KEY config) then GEMINI_API_KEY config
    else VERTEX_AI config in
  if negb (truthy api_key) then
    throw (ValueError "GEMINI_API_KEY or VERTEX_AI must be set in environment variables")
  else
    _ <~ emit (Configure api_key) ;;
    pure {| model := EMBEDDING_MODEL config |}.

(** ** [vectorize_metadata] *)

(** [if metadata.get(key): text_parts.append(f"<label>{metadata[key]}")]. *)
Definition append_field (metadata : dict) (key label : string)
    (text_parts : list string) : result (list string) :=
  if truthy (get metadata key) then
    v <- item metadata key ;;
    ok (text_parts ++ [(label ++ str v)%string])%list
  else ok text_parts.

(** Lines 24 to 51: the text that is embedded. *)
Definition metadata_text_parts (metadata : dict) : result (list string) :=
  text_parts <- ok [] ;;
  text_parts <- append_field metadata "invoice_id" "Invoice ID: " text_parts ;;
  text_parts <- append_field metadata "seller_name" "Seller: " text_parts ;;
  text_parts <- append_field metadata "seller_address" "Address: " text_parts ;;
  text_parts <- append_field metadata "tax_id" "Tax ID: " text_parts ;;
  text_parts <- append_field metadata "subtotal_amount" "Subtotal: " text_parts ;;
  text_parts <- append_field metadata "tax_amount" "Tax: " text_parts ;;
  text_parts <- append_field metadata "contract_id" "Contract ID: " text_parts ;;
  text_parts <- append_field metadata "text" "Text: " text_parts ;;
  text_parts <- append_field metadata "summary" "Summary: " text_parts ;;
  ok text_parts.

Definition metadata_text (metadata : dict) : result string :=
  text_parts <- metadata_text_parts metadata ;;
  ok (join " | " text_parts).

(** Lines 60 to 86: the vector inside the answer of the embedding service.
    The [logger.info] line evaluates [len(embedding)]. *)
Definition metadata_embedding (res : value) : result value :=
  embedding <-
    (if hasattr res "embedding" then
       e <- attr res "embedding" ;;
       if isinstance_dict e then call_get e "values" e
       else ok e
     else if isinstance_dict res then call_get res "embedding" res
     else ok res) ;;
  embedding <-
    (if negb (isinstance_list embedding) then
       if hasattr embedding "values" then attr embedding "values"
       else if hasattr embedding "__iter__" && negb (isinstance_str embedding) then
         xs <- iterate embedding ;;
         ok (VList xs)
       else raise (ValueError ("Unexpected embedding format: " ++ type_repr embedding))
     else ok embedding) ;;
  _ <- len embedding ;;
  ok embedding.

Definition vectorize_metadata (self : Vectorizer) (metadata : dict) : eff call value :=
  text <~ lift (metadata_text metadata) ;;
  res <~ call_embed_content (model self) text "RETRIEVAL_DOCUMENT" ;;
  lift (metadata_embedding res).

(** ** [vectorize_query] *)

(** Lines 110 to 132. *)
Definition query_embedding (res : value) : result value :=
  embedding <-
    (if hasattr res "embedding" then
       e <- attr res "embedding" ;;
       if isinstance_dict e then call_get e "values" e
       else ok e
     else if isinstance_dict res then call_get res "embedding" res
     else ok res) ;;
  embedding <-
    (if negb (isinstance_list embedding) then
       if hasattr embedding "values" then attr embedding "values"
       else if hasattr embedding "__iter__" && negb (isinstance_str embedding) then
         xs <- iterate embedding ;;
         ok (VList xs)
       else raise (ValueError ("Unexpected embedding format: " ++ type_repr embedding))
     else ok embedding) ;;
  _ <- len embedding ;;
  ok embedding.

Definition vectorize_query (self : Vectorizer) (query_text : string) : eff call value :=
  res <~ call_embed_content (model self) query_text "RETRIEVAL_QUERY" ;;
  lift (query_embedding res).

(** ** [generate_answer] *)

(** Lines 156 to 161: one labelled excerpt per context text, [i] being the
    index [enumerate] gives to [text]. *)
Definition context_part (contract_ids : option (list value)) (i : nat) (text : value) : string :=
  match contract_ids with
  | Some ids =>
      if nonempty ids && (i <? List.length ids)%nat then
        "Contract ID: " ++ str (nth i ids VNone) ++ nl ++ str text
      else "Contract Excerpt " ++ str_of_nat (i + 1) ++ ":" ++ nl ++ str text
  | None => "Contract Excerpt " ++ str_of_nat (i + 1) ++ ":" ++ nl ++ str text
  end.

Fixpoint context_parts_from (contract_ids : option (list value)) (i : nat)
    (context_texts : list value) : list string :=
  match context_texts with
  | [] => []
  | text :: rest =>
      context_part contract_ids i text :: context_parts_from contract_ids (S i) rest
  end.

Definition context_parts (context_texts : list value) (contract_ids : option (list value))
    : list string :=
  context_parts_from contract_ids 0 context_texts.

(** Lines 166 to 175. *)
Definition build_prompt (context query : string) : string :=
  "You are a helpful assistant that answers questions about contracts based on the provided contract excerpts."
  ++ nl ++ nl ++
  "Use the following contract excerpts to answer the user's question. If the information is not available in the provided excerpts, say so clearly."
  ++ nl ++ nl ++
  "Contract Excerpts:" ++ nl ++ context
  ++ nl ++ nl ++
  "User Question: " ++ query
  ++ nl ++ nl ++
  "Please provide a clear, accurate answer based on the contract excerpts above. If you reference specific information, mention which contract it comes from if available.".

Definition alternative_models : list string :=
  ["gemini-1.5-pro"; "gemini-1.5-flash"; "gemini-pro"].

(** Lines 188 to 197: the loop over the alternatives; [None] when the loop
    ends with [model] still [None]. *)
Fixpoint try_alternatives (model_name : string) (alternatives : list string)
    : eff call (option handle) :=
  match alternatives with
  | [] => pure None
  | alt_model :: rest =>
      if negb (String.eqb alt_model model_name) then
        try_except
          (m <~ call_GenerativeModel alt_model ;; pure (Some m))
          (fun _ => try_alternatives model_name rest)
      else try_alternatives model_name rest
  end.

(** Lines 182 to 200. *)
Definition initialize_model (model_name : string) : eff call handle :=
  try_except
    (call_GenerativeModel model_name)
    (fun model_error =>
       m <~ try_alternatives model_name alternative_models ;;
       match m with
       | None =>
           throw (ValueError ("Could not initialize any Gemini model. Original error: "
                              ++ exc_message model_error))
       | Some m => pure m
       end).

(** [if hasattr(part, 'text') and part.text: text_parts.append(part.text)]
    over the parts. *)
Definition part_texts (parts : list value) : list value :=
  flat_map
    (fun part =>
       match getattr part "text" with
       | Some t => if truthy t then [t] else []
       | None => []
       end)
    parts.

(** [''.join(text_parts)]: every item has to be a string. *)
Fixpoint join_texts (i : nat) (text_parts : list value) : result string :=
  match text_parts with
  | [] => ok ""
  | VStr s :: rest =>
      r <- join_texts (S i) rest ;;
      ok (s ++ r)
  | v :: _ =>
      raise (TypeError ("sequence item " ++ str_of_nat i ++ ": expected str instance, "
                        ++ type_name v ++ " found"))
  end.

(** Lines 229 to 249: the answer in the first candidate; [VNone] when the
    assignment to [answer] is not reached. *)
Definition candidate_answer (candidate : value) : result value :=
  if hasattr candidate "content" then
    content <- attr candidate "content" ;;
    if hasattr content "parts" then
      parts <- attr content "parts" ;;
      items <- iterate parts ;;
      let text_parts := part_texts items in
      if nonempty text_parts then
        s <- join_texts 0 text_parts ;;
        ok (VStr s)
      else ok VNone
    else if hasattr content "text" then attr content "text"
    else ok (VStr (str content))
  else if hasattr candidate "text" then attr candidate "text"
  else ok (VStr (str candidate)).

(** Lines 211 to 249: the value of [answer] after methods 1 and 2. *)
Definition located_answer (response : value) : result value :=
  if match getattr response "text" with Some t => truthy t | None => false end then
    attr response "text"
  else if hasattr response "candidates" then
    candidates <- attr response "candidates" ;;
    n <- len candidates ;;
    if (0 <? n)%nat then
      candidate <- first_item candidates ;;
      candidate_answer candidate
    else ok VNone
  else ok VNone.

(** [answer.strip()]. *)
Definition call_strip (answer : value) : result string :=
  match answer with
  | VStr s => ok (strip s)
  | _ => raise (AttributeError ("'" ++ type_name answer ++ "' object has no attribute 'strip'"))
  end.

(** Lines 251 to 272. *)
Definition checked_answer (response answer : value) : result string :=
  _ <- (if negb (truthy answer) && hasattr response "prompt_feedback" then
          feedback <- attr response "prompt_feedback" ;;
          match getattr feedback "block_reason" with
          | Some block_reason =>
              if truthy block_reason then
                raise (ValueError ("Content was blocked: " ++ str block_reason))
              else ok tt
          | None => ok tt
          end
        else ok tt) ;;
  if negb (truthy answer) then
    raise (ValueError "Could not extract answer from Gemini response")
  else
    stripped <- call_strip answer ;;
    if String.eqb stripped "" then raise (ValueError "Generated answer is empty")
    else ok stripped.

Definition answer_of_response (response : value) : result string :=
  answer <- located_answer response ;;
  checked_answer response answer.

Definition no_context_message : string :=
  "No contract context available to generate an answer.".

Definition generate_answer (self : Vectorizer) (query : string)
    (context_texts : list value) (contract_ids : option (list value)) : eff call string :=
  if negb (nonempty context_texts) then pure no_context_message
  else
    let context := join (nl ++ nl ++ "---" ++ nl ++ nl)
                        (context_parts context_texts contract_ids) in
    let prompt := build_prompt context query in
    let model_name := GEMINI_GENERATION_MODEL config in
    m <~ initialize_model model_name ;;
    response <~ call_generate_content m prompt ;;
    lift (answer_of_response response).

End Methods.

End Vectorizer.

(* ===================================================================== *)
(** * test_api.py *)
(* ===================================================================== *)

Module TestApi.
Import Py Py.Notations Eff Eff.Notations.

(** What [requests.post] does: it raises a [requests] connection error, a
    [requests] timeout that is no connection error, or another exception, or
    it returns a response with a status code, a body text and the outcome of
    [response.json()]. *)
Inductive post_outcome : Type :=
| ConnectionError
| Timeout
| OtherException (e : exception)
| Response (status_code : Z) (text : string) (json : result value).

(** What the script does to the outside: the request and the lines printed. *)
Inductive event : Type :=
| Post (url document_type pdf_path : string)
| Print (line : string).

(** The two marks of the messages, U+2705 and U+274C, as their UTF-8 bytes. *)
Definition check_mark : string :=
  String (ascii_of_nat 226) (String (ascii_of_nat 156) (String (ascii_of_nat 133) EmptyString)).
Definition cross_mark : string :=
  String (ascii_of_nat 226) (String (ascii_of_nat 157) (String (ascii_of_nat 140) EmptyString)).

Definition url : string := "http://localhost:8001/upload_document".

Section Tester.

Variable str_other : value -> string.
Local Abbreviation str := (Py.str str_other).

Definition print (line : string) : eff event unit := emit (Print line).

(** [for key, value in metadata.items(): print(line)]. *)
Fixpoint print_items (line : string -> value -> string) (items : dict) : eff event unit :=
  match items with
  | [] => pure tt
  | (key, value) :: rest =>
      _ <~ print (line key value) ;;
      print_items line rest
  end.

(** The three [except] clauses around the request. *)
Definition connection_error_lines : list event :=
  [Print "Error: Could not connect to API. Make sure the server is running on http://localhost:8001"].

Definition timeout_lines : list event :=
  [Print "Error: Request timed out. The document processing is taking longer than expected.";
   Print "This might be due to:";
   Print "  - Large document size";
   Print "  - Slow API response from Landing AI";
   Print "  - Network connectivity issues"].

(** The exception is a [requests.exceptions.ConnectionError], the class or
    one of its subclasses. *)
Definition is_connection_error (e : exception) : bool :=
  existsb (String.eqb (exc_class e))
    ["requests.exceptions.ConnectionError"; "requests.exceptions.ProxyError";
     "requests.exceptions.SSLError"; "requests.exceptions.ConnectTimeout"].

(** The exception is a [requests.exceptions.Timeout]. *)
Definition is_timeout (e : exception) : bool :=
  existsb (String.eqb (exc_class e))
    ["requests.exceptions.Timeout"; "requests.exceptions.ReadTimeout";
     "requests.exceptions.ConnectTimeout"].

(** The [except] clauses in their order: the first whose class matches the
    exception handles it. *)
Definition except_clauses (e : exception) : list event :=
  if is_connection_error e then connection_error_lines
  else if is_timeout e then timeout_lines
  else [Print ("Error: " ++ exc_message e)].

(** [try: block] under the three clauses: what was done before the exception
    stays done. *)
Definition try_block (block : eff event unit) : list event :=
  match block with
  | (t, inl e) => (t ++ except_clauses e)%list
  | (t, inr _) => t
  end.

(** ** [test_upload_invoice] *)

(** Line 35. *)
Definition invoice_line (key : string) (value : value) : string :=
  "  " ++ key ++ ": " ++ str value.

(** Lines 29 to 35. *)
Definition invoice_success (json : result value) : eff event unit :=
  result <~ lift json ;;
  _ <~ print (nl ++ check_mark ++ " Success!") ;;
  message <~ lift (call_get result "message" VNone) ;;
  _ <~ print ("Message: " ++ str message) ;;
  _ <~ print (nl ++ "Extracted Metadata:") ;;
  metadata <~ lift (call_get result "metadata" (VDict [])) ;;
  items <~ lift (call_items metadata) ;;
  print_items invoice_line items.

(** Lines 24 to 48: the request and the report, under the [except]
    clauses. *)
Definition invoice_request (pdf_path : string) (post : post_outcome) : list event :=
  Post url "invoice" pdf_path
  :: match post with
     | ConnectionError => connection_error_lines
     | Timeout => timeout_lines
     | OtherException e => except_clauses e
     | Response status_code text json =>
         if status_code =? 200 then try_block (invoice_success json)
         else [Print (nl ++ cross_mark ++ " Error: " ++ str_of_int status_code); Print text]
     end.

(** [file_exists] is [os.path.exists(pdf_path)], [opened] what
    [open(pdf_path, 'rb')] does, the file or an exception, and [post] what
    the request does.  The result is everything the function does, in
    order, and how it ends: an exception of [open] is not handled. *)
Definition test_upload_invoice (file_exists : bool) (opened : result unit)
    (pdf_path : string) (post : post_outcome) : eff event unit :=
  if negb file_exists then print ("Error: File not found: " ++ pdf_path)
  else
    _ <~ lift opened ;;
    _ <~ print ("Uploading invoice: " ++ pdf_path ++ "...") ;;
    (invoice_request pdf_path post, ok tt).

(** ** [test_upload_contract] *)

(** Lines 74 to 78. *)
Definition contract_line (key : string) (value : value) : string :=
  if String.eqb key "text" && truthy value && (200 <? String.length (str value))%nat then
    "  " ++ key ++ ": " ++ prefix 200 (str value)
    ++ "... (truncated, full length: " ++ str_of_nat (String.length (str value)) ++ " chars)"
  else "  " ++ key ++ ": " ++ str value.

(** Lines 68 to 78. *)
Definition contract_success (json : result value) : eff event unit :=
  result <~ lift json ;;
  _ <~ print (nl ++ check_mark ++ " Success!") ;;
  message <~ lift (call_get result "message" VNone) ;;
  _ <~ print ("Message: " ++ str message) ;;
  _ <~ print (nl ++ "Extracted Metadata:") ;;
  metadata <~ lift (call_get result "metadata" (VDict [])) ;;
  items <~ lift (call_items metadata) ;;
  print_items contract_line items.

(** Lines 63 to 91. *)
Definition contract_request (pdf_path : string) (post : post_outcome) : list event :=
  Post url "contract" pdf_path
  :: match post with
     | ConnectionError => connection_error_lines
     | Timeout => timeout_lines
     | OtherException e => except_clauses e
     | Response status_code text json =>
         if status_code =? 200 then try_block (contract_success json)
         else [Print (nl ++ cross_mark ++ " Error: " ++ str_of_int status_code); Print text]
     end.

Definition test_upload_contract (file_exists : bool) (opened : result unit)
    (pdf_path : string) (post : post_outcome) : eff event unit :=
  if negb file_exists then print ("Error: File not found: " ++ pdf_path)
  else
    _ <~ lift opened ;;
    _ <~ print ("Uploading contract: " ++ pdf_path ++ "...") ;;
    (contract_request pdf_path post, ok tt).

(** ** The script *)

Definition usage_lines : list event :=
  [Print "Usage:";
   Print "  python test_api.py invoice <path_to_invoice.pdf>";
   Print "  python test_api.py contract <path_to_contract.pdf>"].

(** Lines 93 to 109.  [argv] is [sys.argv]; [os_path_exists], [open_rb]
    and [requests_post] are what the file system and the server answer, the
    last for a document type and a path.  The result is what the script
    does and how it ends: the status it passes to [sys.exit], if it calls
    it, or the exception that an upload function lets through. *)
Definition main (os_path_exists : string -> bool) (open_rb : string -> result unit)
    (requests_post : string -> string -> post_outcome) (argv : list string)
    : eff event (option Z) :=
  if (List.length argv <? 3)%nat then (usage_lines, ok (Some 1))
  else
    let doc_type := lower (nth 1 argv "") in
    let pdf_path := nth 2 argv "" in
    if String.eqb doc_type "invoice" then
      _ <~ test_upload_invoice (os_path_exists pdf_path) (open_rb pdf_path) pdf_path
             (requests_post "invoice" pdf_path) ;;
      pure None
    else if String.eqb doc_type "contract" then
      _ <~ test_upload_contract (os_path_exists pdf_path) (open_rb pdf_path) pdf_path
             (requests_post "contract" pdf_path) ;;
      pure None
    else
      ([Print ("Error: Unknown document type '" ++ doc_type
               ++ "'. Use 'invoice' or 'contract'")],
       ok (Some 1)).

End Tester.

End TestApi.

(* ===================================================================== *)
(** * The vocabulary of the properties *)
(* ===================================================================== *)

Import Py Py.Notations Eff Eff.Notations Vectorizer TestApi.

(** A conversion for the values whose [str] is left open, used in the
    concrete runs below; none of them formats such a value. *)
Definition angle_str (v : value) : string := "<" ++ type_name v ++ ">".

(** ** The text derived from a metadata mapping *)

(** The recognised fields with their labels, in the order of the source. *)
Definition invoice_fields : list (string * string) :=
  [("invoice_id", "Invoice ID: "); ("seller_name", "Seller: ");
   ("seller_address", "Address: "); ("tax_id", "Tax ID: ");
   ("subtotal_amount", "Subtotal: "); ("tax_amount", "Tax: ")].

Definition contract_fields : list (string * string) :=
  [("contract_id", "Contract ID: "); ("text", "Text: ")].

Definition summary_field : string * string := ("summary", "Summary: ").

Definition recognised_fields : list (string * string) :=
  (invoice_fields ++ contract_fields ++ [summary_field])%list.

(** The labelled segment of a field. *)
Definition segment (str_other : value -> string) (metadata : dict)
    (field : string * string) : string :=
  snd field ++ str str_other (get metadata (fst field)).

(** The segments of the fields of [fields] that pass [keep], in order. *)
Definition segments (str_other : value -> string) (keep : string -> bool)
    (metadata : dict) (fields : list (string * string)) : list string :=
  map (segment str_other metadata) (filter (fun field => keep (fst field)) fields).

(** A field is present when its key is in the mapping; it is set when its
    value is true. *)
Definition present (metadata : dict) (key : string) : bool := has_key key metadata.
Definition is_set (metadata : dict) (key : string) : bool := truthy (get metadata key).

(** Every key of the mapping is an invoice field. *)
Definition only_invoice_fields (metadata : dict) : bool :=
  forallb (fun kv => existsb (String.eqb (fst kv)) (map fst invoice_fields)) metadata.

(** ** The shapes of an embedding response *)

Definition is_number (v : value) : bool :=
  match v with VInt _ | VFloat _ => true | _ => false end.

Definition numbers (xs : list value) : bool := forallb is_number xs.

(** What may sit under [embedding]: the sequence itself, or a container with
    the sequence under [values]. *)
Inductive holds_values : value -> list value -> Prop :=
| holds_list xs : holds_values (VList xs) xs
| holds_dict_values d xs :
    lookup "values" d = Some (VList xs) -> holds_values (VDict d) xs
| holds_attr_values cls attrs coll xs :
    lookup "values" attrs = Some (VList xs) -> holds_values (VObj cls attrs coll) xs.

(** The shapes as the specification lists them, each with the flat numeric
    sequence it carries: (a) a plain list of numbers, (b) a container with an
    [embedding] key or attribute, possibly nesting [values], (c) a non-string
    iterable of numbers. *)
Inductive stated_shape : value -> list value -> Prop :=
| stated_plain xs :
    numbers xs = true -> stated_shape (VList xs) xs
| stated_key d e xs :
    lookup "embedding" d = Some e -> holds_values e xs -> numbers xs = true ->
    stated_shape (VDict d) xs
| stated_attribute cls attrs coll e xs :
    lookup "embedding" attrs = Some e -> holds_values e xs -> numbers xs = true ->
    stated_shape (VObj cls attrs coll) xs
| stated_iterable r xs :
    isinstance_str r = false -> iter_items r = Some xs -> numbers xs = true ->
    stated_shape r xs.

(** The shapes the code unwraps to a list: the list itself; under an
    [embedding] attribute any of the three holders; under an [embedding] key
    a list or an instance with [values]; a tuple, or an iterable instance
    that has neither an [embedding] nor a [values] attribute. *)
Inductive recognised : value -> list value -> Prop :=
| rec_list xs : recognised (VList xs) xs
| rec_attribute cls attrs coll e xs :
    lookup "embedding" attrs = Some e -> holds_values e xs ->
    recognised (VObj cls attrs coll) xs
| rec_key_list d xs :
    lookup "embedding" d = Some (VList xs) -> recognised (VDict d) xs
| rec_key_attr_values d cls attrs coll xs :
    lookup "embedding" d = Some (VObj cls attrs coll) ->
    lookup "values" attrs = Some (VList xs) ->
    recognised (VDict d) xs
| rec_tuple xs : recognised (VTuple xs) xs
| rec_iterable cls attrs coll xs :
    lookup "embedding" attrs = None -> lookup "values" attrs = None ->
    iter_items (VObj cls attrs coll) = Some xs ->
    recognised (VObj cls attrs coll) xs.

(** The responses the code rejects for their format: a string, or a value
    that is neither a container nor iterable. *)
Definition unrecognised (r : value) : bool :=
  match r with
  | VNone | VBool _ | VInt _ | VFloat _ | VStr _ | VMethod _ _ => true
  | VObj _ attrs NotIterable =>
      negb (has_key "embedding" attrs) && negb (has_key "values" attrs)
  | _ => false
  end.

(** One request to the embedding service followed by the extraction: what the
    two vectorising methods have in common. *)
Definition embedding_request (service : genai) (self : Vectorizer)
    (content task_type : string) : eff call value :=
  ([EmbedContent (model self) content task_type],
   res <- embed_content service (model self) content task_type ;;
   query_embedding res).

(** ** Answers *)

(** The messages of the errors [generate_answer] raises about the answer. *)
Definition descriptive (msg : string) : Prop :=
  msg = "Could not extract answer from Gemini response"
  \/ msg = "Generated answer is empty"
  \/ exists reason, msg = "Content was blocked: " ++ reason.

Definition excerpt_separator : string := nl ++ nl ++ "---" ++ nl ++ nl.

(** The prompt [generate_answer] sends. *)
Definition prompt_of (str_other : value -> string) (query : string)
    (context_texts : list value) (contract_ids : option (list value)) : string :=
  build_prompt (join excerpt_separator (context_parts str_other context_texts contract_ids)) query.

(** The calls that construct models when every construction fails. *)
Definition all_attempts (model_name : string) : list call :=
  NewModel model_name
  :: map NewModel (filter (fun alt => negb (String.eqb alt model_name)) alternative_models).

(** A client whose model constructor always fails with [e], for the runs. *)
Definition unavailable (e : exception) : genai :=
  {| embed_content := fun _ _ _ => raise e;
     GenerativeModel := fun _ => raise e;
     generate_content := fun _ _ => raise e |}.

(** A client that constructs every model and answers every prompt with
    [response]. *)
Definition answering (response : value) : genai :=
  {| embed_content := fun _ _ _ => ok response;
     GenerativeModel := fun name => ok name;
     generate_content := fun _ _ => ok response |}.

(** A client that constructs the model [name] alone and answers every prompt
    with [response]. *)
Definition only_model (name : string) (response : value) : genai :=
  {| embed_content := fun _ _ _ => ok response;
     GenerativeModel :=
       fun n => if String.eqb n name then ok n
                else raise (Raise "NotFound" ("404 " ++ n ++ " is not found"));
     generate_content := fun _ _ => ok response |}.

(** A client that constructs every model and fails every generation request
    with [e]. *)
Definition refusing (e : exception) : genai :=
  {| embed_content := fun _ _ _ => raise e;
     GenerativeModel := fun name => ok name;
     generate_content := fun _ _ => raise e |}.

Definition sample_config : Config :=
  {| GEMINI_API_KEY := VStr "key"; VERTEX_AI := VNone;
     EMBEDDING_MODEL := "models/text-embedding-004";
     GEMINI_GENERATION_MODEL := "gemini-1.5-flash" |}.

Definition sample_self : Vectorizer := {| model := "models/text-embedding-004" |}.

(** ** The upload tester *)

(** The line for a field printed in full, and the truncated line for a long
    one. *)
Definition full_line (str_other : value -> string) (key : string) (v : value) : string :=
  "  " ++ key ++ ": " ++ str str_other v.

Definition truncated_line (str_other : value -> string) (key : string) (v : value) : string :=
  "  " ++ key ++ ": " ++ prefix 200 (str str_other v)
  ++ "... (truncated, full length: " ++ str_of_nat (String.length (str str_other v)) ++ " chars)".

(** The value is text longer than the preview. *)
Definition long_text (v : value) : bool :=
  match v with
  | VStr s => (200 <? String.length s)%nat
  | _ => false
  end.

(** The lines that open the report of a successful upload. *)
Definition success_header (str_other : value -> string) (message : value) : list event :=
  [Print (nl ++ check_mark ++ " Success!");
   Print ("Message: " ++ str str_other message);
   Print (nl ++ "Extracted Metadata:")].

(** A JSON body with a message and a metadata mapping. *)
Definition upload_body (message : value) (metadata : dict) : value :=
  VDict [("message", message); ("metadata", VDict metadata)].

Fixpoint repeat_string (n : nat) (s : string) : string :=
  match n with
  | O => EmptyString
  | S n' => s ++ repeat_string n' s
  end.

(** ** Further vocabulary *)

(** [part] occurs in [s]. *)
Definition occurs_in (part s : string) : Prop :=
  exists before after, s = before ++ part ++ after.

(** The two outcomes the specification gives the extraction, for both
    methods at once: the same flat numeric list, or the same error about the
    unexpected format. *)
Definition stated_outcomes (r : value) : Prop :=
  (exists xs, numbers xs = true
              /\ metadata_embedding r = ok (VList xs)
              /\ query_embedding r = ok (VList xs))
  \/ (exists type,
        metadata_embedding r = raise (ValueError ("Unexpected embedding format: " ++ type))
        /\ query_embedding r = raise (ValueError ("Unexpected embedding format: " ++ type))).

(** The event is the request to the server. *)
Definition is_post (ev : event) : bool :=
  match ev with Post _ _ _ => true | Print _ => false end.

(** The strings of a list, one after the other. *)
Definition concat_texts (ss : list string) : string := fold_right append "" ss.

(** The alternatives that differ from the configured model, in order. *)
Definition other_models (model_name : string) (alternatives : list string) : list string :=
  filter (fun alt => negb (String.eqb alt model_name)) alternatives.

(** A response part whose [text] is [s]: what [part.text] reads. *)
Definition has_text (part : value) (s : string) : Prop :=
  getattr part "text" = Some (VStr s).

(** The response offers no direct text: it has no [text] attribute, or a
    false one. *)
Definition no_direct_text (response : value) : bool :=
  match getattr response "text" with Some t => negb (truthy t) | None => true end.

(** [open(path, 'rb')] on a file system where every path opens. *)
Definition readable (path : string) : result unit := ok tt.

(** [os.path.exists] on a file system that holds the listed paths. *)
Definition file_system (present_files : list string) (path : string) : bool :=
  existsb (String.eqb path) present_files.

(* ===================================================================== *)
(** * The derived text of [vectorize_metadata] *)
(* ===================================================================== *)

Lemma item_of_set_field (metadata : dict) (key : string) :
  truthy (get metadata key) = true -> item metadata key = ok (get metadata key).
Proof.
  unfold get, item. destruct (lookup key metadata); simpl.
  - reflexivity.
  - discriminate.
Qed.

Lemma append_field_eq str_other metadata key label text_parts :
  append_field str_other metadata key label text_parts
  = ok (text_parts
        ++ (if is_set metadata key then [segment str_other metadata (key, label)] else []))%list.
Proof.
  unfold append_field, is_set, segment; simpl.
  destruct (truthy (get metadata key)) eqn:Hset.
  - rewrite (item_of_set_field _ _ Hset). reflexivity.
  - now rewrite app_nil_r.
Qed.

Lemma segments_cons str_other keep metadata field fields :
  segments str_other keep metadata (field :: fields)
  = ((if keep (fst field) then [segment str_other metadata field] else [])
     ++ segments str_other keep metadata fields)%list.
Proof.
  unfold segments; simpl. now destruct (keep (fst field)).
Qed.

Lemma segments_app str_other keep metadata fields1 fields2 :
  segments str_other keep metadata (fields1 ++ fields2)
  = (segments str_other keep metadata fields1
     ++ segments str_other keep metadata fields2)%list.
Proof.
  unfold segments. now rewrite filter_app, map_app.
Qed.

(** The text parts are the segments of the fields that are set, in the order
    of the source; building them never raises. *)
Lemma metadata_text_parts_eq str_other metadata :
  metadata_text_parts str_other metadata
  = ok (segments str_other (is_set metadata) metadata recognised_fields).
Proof.
  unfold metadata_text_parts, recognised_fields, invoice_fields, contract_fields,
    summary_field.
  cbn [app].
  rewrite !segments_cons.
  cbn [rbind ok].
  repeat (rewrite append_field_eq; cbn [rbind ok]).
  cbn [fst]. unfold segments; cbn [filter map].
  now rewrite <- !app_assoc, app_nil_r.
Qed.

Lemma metadata_text_eq str_other metadata :
  metadata_text str_other metadata
  = ok (join " | " (segments str_other (is_set metadata) metadata recognised_fields)).
Proof.
  unfold metadata_text. now rewrite metadata_text_parts_eq.
Qed.

Lemma lookup_only_invoice metadata key :
  only_invoice_fields metadata = true ->
  existsb (String.eqb key) (map fst invoice_fields) = false ->
  lookup key metadata = None.
Proof.
  intros Honly Hkey. induction metadata as [|[k v] rest IH]; [reflexivity|].
  unfold only_invoice_fields in Honly, IH. cbn [forallb] in Honly.
  apply andb_true_iff in Honly as [Hk Hrest].
  cbn [lookup]. destruct (String.eqb_spec key k) as [->|Hne].
  - cbn [fst] in Hk. congruence.
  - now apply IH.
Qed.

Lemma unset_outside_invoice metadata key :
  only_invoice_fields metadata = true ->
  existsb (String.eqb key) (map fst invoice_fields) = false ->
  is_set metadata key = false.
Proof.
  intros Honly Hkey. unfold is_set, get.
  now rewrite (lookup_only_invoice _ _ Honly Hkey).
Qed.

(** C2, as the code has it.  For a metadata mapping whose keys are invoice
    fields only, the text [vectorize_metadata] derives is the labelled
    segments of the invoice fields whose value is true, in the fixed order
    invoice id, seller, address, tax id, subtotal, tax, joined by [" | "];
    a field that is absent contributes nothing, and neither does one whose
    value is false. *)
Theorem invoice_text_of_set_fields (str_other : value -> string) (metadata : dict) :
  only_invoice_fields metadata = true ->
  metadata_text str_other metadata
  = ok (join " | " (segments str_other (is_set metadata) metadata invoice_fields)).
Proof.
  intros Honly. rewrite metadata_text_eq. unfold recognised_fields.
  rewrite !segments_app.
  assert (Hc : segments str_other (is_set metadata) metadata contract_fields = []).
  { unfold contract_fields. rewrite !segments_cons. cbn [fst].
    now rewrite !(unset_outside_invoice _ _ Honly) by reflexivity. }
  assert (Hs : segments str_other (is_set metadata) metadata [summary_field] = []).
  { unfold summary_field. rewrite !segments_cons. cbn [fst].
    now rewrite !(unset_outside_invoice _ _ Honly) by reflexivity. }
  now rewrite Hc, Hs, !app_nil_r.
Qed.

Lemma invoice_text_of_set_fields_run :
  only_invoice_fields
    [("tax_amount", VInt 12); ("invoice_id", VStr "INV-7"); ("subtotal_amount", VInt 0)] = true
  /\ metadata_text angle_str
       [("tax_amount", VInt 12); ("invoice_id", VStr "INV-7"); ("subtotal_amount", VInt 0)]
     = ok "Invoice ID: INV-7 | Tax: 12".
Proof.
  split.
  - reflexivity.
  - apply (invoice_text_of_set_fields angle_str
             [("tax_amount", VInt 12); ("invoice_id", VStr "INV-7"); ("subtotal_amount", VInt 0)]).
    reflexivity.
Defined.

(** C2 as stated fails: a subtotal of 0 is present in the mapping, and the
    text has no segment for it. *)
Lemma invoice_text_present_fields_fails :
  only_invoice_fields [("invoice_id", VStr "INV-7"); ("subtotal_amount", VInt 0)] = true
  /\ join " | " (segments angle_str
                   (present [("invoice_id", VStr "INV-7"); ("subtotal_amount", VInt 0)])
                   [("invoice_id", VStr "INV-7"); ("subtotal_amount", VInt 0)] invoice_fields)
     = "Invoice ID: INV-7 | Subtotal: 0"
  /\ metadata_text angle_str [("invoice_id", VStr "INV-7"); ("subtotal_amount", VInt 0)]
     = ok "Invoice ID: INV-7"
  /\ metadata_text angle_str [("invoice_id", VStr "INV-7"); ("subtotal_amount", VInt 0)]
     <> ok (join " | " (segments angle_str
                          (present [("invoice_id", VStr "INV-7"); ("subtotal_amount", VInt 0)])
                          [("invoice_id", VStr "INV-7"); ("subtotal_amount", VInt 0)]
                          invoice_fields)).
Proof.
  repeat split; try reflexivity.
  vm_compute. discriminate.
Qed.

(** C7, as the code has it.  For every metadata mapping whose summary has a
    true value, whatever other invoice or contract fields it holds, the last
    of the text parts [vectorize_metadata] joins with [" | "] is the labelled
    summary, ["Summary: "] followed by the summary. *)
Theorem summary_is_last_segment (str_other : value -> string) (metadata : dict) :
  is_set metadata "summary" = true ->
  exists front,
    metadata_text_parts str_other metadata
    = ok (front ++ [segment str_other metadata summary_field])%list
    /\ metadata_text str_other metadata
       = ok (join " | " (front ++ [segment str_other metadata summary_field])%list)
    /\ last (front ++ [segment str_other metadata summary_field])%list ""
       = segment str_other metadata summary_field.
Proof.
  intros Hset.
  exists (segments str_other (is_set metadata) metadata (invoice_fields ++ contract_fields)).
  assert (Hparts : segments str_other (is_set metadata) metadata recognised_fields
                   = (segments str_other (is_set metadata) metadata
                        (invoice_fields ++ contract_fields)
                      ++ [segment str_other metadata summary_field])%list).
  { unfold recognised_fields. rewrite app_assoc, segments_app. f_equal.
    rewrite segments_cons. cbn [fst summary_field]. rewrite Hset.
    reflexivity. }
  rewrite metadata_text_eq, metadata_text_parts_eq, Hparts.
  repeat split. apply last_last.
Qed.

Lemma summary_is_last_segment_run :
  is_set [("summary", VStr "Net 30"); ("contract_id", VStr "C-9"); ("tax_id", VInt 44)]
         "summary" = true
  /\ exists front,
       metadata_text_parts angle_str
         [("summary", VStr "Net 30"); ("contract_id", VStr "C-9"); ("tax_id", VInt 44)]
       = ok (front ++ ["Summary: Net 30"])%list
       /\ metadata_text angle_str
            [("summary", VStr "Net 30"); ("contract_id", VStr "C-9"); ("tax_id", VInt 44)]
          = ok (join " | " (front ++ ["Summary: Net 30"])%list)
       /\ last (front ++ ["Summary: Net 30"])%list "" = "Summary: Net 30".
Proof.
  split.
  - reflexivity.
  - apply (summary_is_last_segment angle_str
             [("summary", VStr "Net 30"); ("contract_id", VStr "C-9"); ("tax_id", VInt 44)]).
    reflexivity.
Defined.

(** C7 as stated fails: with an empty summary in the mapping, the last
    segment of the text is the invoice id. *)
Lemma summary_present_not_last :
  present [("invoice_id", VStr "INV-7"); ("summary", VStr "")] "summary" = true
  /\ metadata_text_parts angle_str [("invoice_id", VStr "INV-7"); ("summary", VStr "")]
     = ok ["Invoice ID: INV-7"]
  /\ metadata_text angle_str [("invoice_id", VStr "INV-7"); ("summary", VStr "")]
     = ok "Invoice ID: INV-7"
  /\ ~ exists front,
         metadata_text_parts angle_str [("invoice_id", VStr "INV-7"); ("summary", VStr "")]
         = ok (front ++ [segment angle_str [("invoice_id", VStr "INV-7"); ("summary", VStr "")]
                           summary_field])%list.
Proof.
  repeat split; try reflexivity.
  intros [front H]. vm_compute in H.
  destruct front as [|part [|part' front]]; simpl in H; discriminate.
Qed.

(** ** Fields with a false value *)

Lemma lookup_remove_same key metadata : lookup key (remove key metadata) = None.
Proof.
  induction metadata as [|[k v] rest IH]; [reflexivity|].
  unfold remove in *. cbn [filter fst].
  destruct (String.eqb_spec key k) as [->|Hne]; cbn [negb].
  - exact IH.
  - cbn [lookup]. destruct (String.eqb_spec key k); [contradiction | exact IH].
Qed.

Lemma lookup_remove_other key key' metadata :
  key' <> key -> lookup key' (remove key metadata) = lookup key' metadata.
Proof.
  intros Hne. induction metadata as [|[k v] rest IH]; [reflexivity|].
  unfold remove in *. cbn [filter fst].
  destruct (String.eqb_spec key k) as [->|Hk]; cbn [negb lookup].
  - destruct (String.eqb_spec key' k); [contradiction | exact IH].
  - now rewrite IH.
Qed.

Lemma get_remove_unset key key' metadata :
  truthy (get metadata key) = false ->
  is_set (remove key metadata) key' = is_set metadata key'
  /\ (is_set metadata key' = true -> get (remove key metadata) key' = get metadata key').
Proof.
  intros Hfalse. unfold is_set, get in *.
  destruct (String.eqb_spec key' key) as [->|Hne].
  - rewrite lookup_remove_same. split.
    + now rewrite Hfalse.
    + rewrite Hfalse. discriminate.
  - rewrite (lookup_remove_other _ _ _ Hne). now split.
Qed.

Lemma segments_same str_other metadata metadata' fields :
  (forall key, is_set metadata' key = is_set metadata key
               /\ (is_set metadata key = true -> get metadata' key = get metadata key)) ->
  segments str_other (is_set metadata') metadata' fields
  = segments str_other (is_set metadata) metadata fields.
Proof.
  intros Hsame. induction fields as [|[key label] rest IH]; [reflexivity|].
  rewrite !segments_cons, IH. cbn [fst].
  destruct (Hsame key) as [Hset Hget]. rewrite Hset.
  destruct (is_set metadata key); [|reflexivity].
  unfold segment; cbn [fst snd]. now rewrite Hget.
Qed.

(** C9.  A field whose value is false (an empty string, zero, [None],
    [False]) counts as absent: the text derived from the mapping, and with it
    the request [vectorize_metadata] makes and its result, are those of the
    mapping without the key. *)
Theorem false_field_as_absent (str_other : value -> string)
    (service : genai) (self : Vectorizer) (metadata : dict) (key : string) :
  truthy (get metadata key) = false ->
  metadata_text_parts str_other metadata = metadata_text_parts str_other (remove key metadata)
  /\ metadata_text str_other metadata = metadata_text str_other (remove key metadata)
  /\ vectorize_metadata str_other service self metadata
     = vectorize_metadata str_other service self (remove key metadata).
Proof.
  intros Hfalse.
  assert (Hparts : metadata_text_parts str_other metadata
                   = metadata_text_parts str_other (remove key metadata)).
  { rewrite !metadata_text_parts_eq. f_equal. symmetry. apply segments_same.
    intros key'. now apply get_remove_unset. }
  assert (Htext : metadata_text str_other metadata
                  = metadata_text str_other (remove key metadata)).
  { unfold metadata_text. now rewrite Hparts. }
  repeat split; try assumption.
  unfold vectorize_metadata. now rewrite Htext.
Qed.

Lemma false_field_as_absent_run :
  truthy (get [("invoice_id", VStr "INV-7"); ("subtotal_amount", VInt 0)] "subtotal_amount")
  = false
  /\ metadata_text angle_str [("invoice_id", VStr "INV-7"); ("subtotal_amount", VInt 0)]
     = metadata_text angle_str [("invoice_id", VStr "INV-7")].
Proof.
  split.
  - reflexivity.
  - apply (false_field_as_absent angle_str (answering VNone) sample_self
             [("invoice_id", VStr "INV-7"); ("subtotal_amount", VInt 0)] "subtotal_amount").
    reflexivity.
Defined.

(* ===================================================================== *)
(** * The embedding inside the response *)
(* ===================================================================== *)

(** The two copies of the extraction compute the same function. *)
Lemma embedding_blocks_agree (r : value) : metadata_embedding r = query_embedding r.
Proof. reflexivity. Qed.

Lemma recognised_extracted (r : value) (xs : list value) :
  recognised r xs -> query_embedding r = ok (VList xs).
Proof.
  intros Hr. destruct Hr as [xs | cls attrs coll e xs He Hv | d xs He
                            | d cls attrs coll xs He Hv | xs | cls attrs coll xs He Hv Hit].
  - reflexivity.
  - unfold query_embedding, hasattr, attr, getattr; cbn. rewrite He; cbn.
    destruct Hv as [xs | d xs Hv | cls' attrs' coll' xs Hv]; cbn.
    + reflexivity.
    + unfold get_default. rewrite Hv. reflexivity.
    + unfold hasattr, attr, getattr; cbn. rewrite Hv. reflexivity.
  - unfold query_embedding; cbn. unfold get_default. rewrite He. reflexivity.
  - unfold query_embedding; cbn. unfold get_default. rewrite He; cbn.
    unfold hasattr, attr, getattr; cbn. rewrite Hv. reflexivity.
  - reflexivity.
  - unfold query_embedding, hasattr, attr, getattr, iterate; cbn.
    rewrite He; cbn. rewrite Hv; cbn. cbn in Hit. rewrite Hit. reflexivity.
Qed.

Lemma unrecognised_rejected (r : value) :
  unrecognised r = true ->
  query_embedding r = raise (ValueError ("Unexpected embedding format: " ++ type_repr r)).
Proof.
  destruct r as [ | b | n | f | s | xs | xs | d | owner name | cls attrs coll];
    cbn; try discriminate; try reflexivity.
  destruct coll as [ | items | items]; try discriminate.
  unfold has_key. intros H. apply andb_true_iff in H as [He Hv].
  unfold query_embedding, hasattr, attr, getattr; cbn.
  destruct (lookup "embedding" attrs); [discriminate|]. cbn.
  destruct (lookup "values" attrs); [discriminate|]. reflexivity.
Qed.

(** X22.  In [vectorize_metadata] and in [vectorize_query] alike, a response
    that is a list, or that holds under an [embedding] attribute a list, a
    dict with a list under [values] or an instance with a list attribute
    [values], or that is a dict holding under the [embedding] key a list or
    an instance with a list attribute [values], or that is a tuple or an
    iterable instance without [embedding] and [values] attributes, yields
    that flat list; the elements are not inspected.  A response that is a
    string, or neither a container nor iterable, raises [ValueError] with
    the message [Unexpected embedding format: <class '...'>], naming its
    type as [type] prints it. *)
Theorem embedding_extraction (r : value) :
  (forall xs, recognised r xs ->
     metadata_embedding r = ok (VList xs) /\ query_embedding r = ok (VList xs))
  /\ (unrecognised r = true ->
        metadata_embedding r
        = raise (ValueError ("Unexpected embedding format: " ++ type_repr r))
        /\ query_embedding r
           = raise (ValueError ("Unexpected embedding format: " ++ type_repr r))).
Proof.
  split.
  - intros xs Hr. rewrite embedding_blocks_agree. split; now apply recognised_extracted.
  - intros Hu. rewrite embedding_blocks_agree. split; now apply unrecognised_rejected.
Qed.

Lemma embedding_extraction_run :
  (recognised
     (VObj "google.generativeai.protos.EmbedContentResponse"
        [("embedding", VDict [("values", VList [VFloat (S754_finite false 1 (-1)); VInt 2])])]
        NotIterable)
     [VFloat (S754_finite false 1 (-1)); VInt 2]
   /\ metadata_embedding
        (VObj "google.generativeai.protos.EmbedContentResponse"
           [("embedding", VDict [("values", VList [VFloat (S754_finite false 1 (-1)); VInt 2])])]
           NotIterable)
      = ok (VList [VFloat (S754_finite false 1 (-1)); VInt 2]))
  /\ (unrecognised (VStr "quota exceeded") = true
      /\ query_embedding (VStr "quota exceeded")
         = raise (ValueError "Unexpected embedding format: <class 'str'>")).
Proof.
  split; split.
  - eapply rec_attribute; [reflexivity | apply holds_dict_values; reflexivity].
  - apply (embedding_extraction
             (VObj "google.generativeai.protos.EmbedContentResponse"
                [("embedding",
                  VDict [("values", VList [VFloat (S754_finite false 1 (-1)); VInt 2])])]
                NotIterable)).
    eapply rec_attribute; [reflexivity | apply holds_dict_values; reflexivity].
  - reflexivity.
  - apply (embedding_extraction (VStr "quota exceeded")). reflexivity.
Defined.

(** C1: the code breaks the claim.  A dict with the vector nested under the
    [embedding] key and a [values] entry is one of the shapes of the claim.
    Under an [embedding] attribute the code unwraps such a dict and returns
    the list; under the [embedding] key it does not: the [values] it then
    reads is the method of the dict, and both methods raise the [TypeError]
    of [len], neither the list nor the error about the format. *)
Theorem nested_values_under_key_fails :
  stated_shape
    (VDict [("embedding",
             VDict [("values", VList [VFloat (S754_finite false 1 (-1)); VFloat (S754_zero false)])])])
    [VFloat (S754_finite false 1 (-1)); VFloat (S754_zero false)]
  /\ metadata_embedding
       (VDict [("embedding",
                VDict [("values",
                        VList [VFloat (S754_finite false 1 (-1)); VFloat (S754_zero false)])])])
     = raise (TypeError "object of type 'builtin_function_or_method' has no len()")
  /\ query_embedding
       (VDict [("embedding",
                VDict [("values",
                        VList [VFloat (S754_finite false 1 (-1)); VFloat (S754_zero false)])])])
     = raise (TypeError "object of type 'builtin_function_or_method' has no len()")
  /\ metadata_embedding
       (VObj "google.generativeai.protos.EmbedContentResponse"
          [("embedding",
            VDict [("values",
                    VList [VFloat (S754_finite false 1 (-1)); VFloat (S754_zero false)])])]
          NotIterable)
     = ok (VList [VFloat (S754_finite false 1 (-1)); VFloat (S754_zero false)]).
Proof.
  repeat split.
  eapply stated_key; [reflexivity | apply holds_dict_values; reflexivity | reflexivity].
Qed.

(** C10, as the code has it.  The extraction in [vectorize_metadata] and the
    one in [vectorize_query] are equivalent: on every response of the
    embedding service they have the same outcome, the same value returned or
    the same exception raised, so that one yields a flat list exactly when
    the other yields the same list, and one raises the error about the
    unexpected format exactly when the other raises the same error.  Each
    method is one request to the embedding service followed by that
    extraction; the first sends the derived text with the tag
    [RETRIEVAL_DOCUMENT], the second the query text with the tag
    [RETRIEVAL_QUERY]. *)
Theorem vectorize_methods_agree (str_other : value -> string) (service : genai)
    (self : Vectorizer) (metadata : dict) (query_text : string) :
  (forall r,
     metadata_embedding r = query_embedding r
     /\ (forall xs, metadata_embedding r = ok (VList xs) <-> query_embedding r = ok (VList xs))
     /\ (forall type,
           metadata_embedding r
           = raise (ValueError ("Unexpected embedding format: " ++ type))
           <-> query_embedding r
               = raise (ValueError ("Unexpected embedding format: " ++ type))))
  /\ (forall text,
        metadata_text str_other metadata = ok text ->
        vectorize_metadata str_other service self metadata
        = embedding_request service self text "RETRIEVAL_DOCUMENT")
  /\ vectorize_query service self query_text
     = embedding_request service self query_text "RETRIEVAL_QUERY".
Proof.
  split; [|split].
  - intros r. rewrite embedding_blocks_agree. repeat split; intros H; exact H.
  - intros text Htext.
    unfold vectorize_metadata, embedding_request, call_embed_content.
    rewrite Htext. cbn.
    destruct (embed_content service _ _ _); reflexivity.
  - unfold vectorize_query, embedding_request, call_embed_content. cbn.
    destruct (embed_content service _ _ _); reflexivity.
Qed.

Lemma vectorize_methods_agree_run :
  vectorize_metadata angle_str
    (answering (VDict [("embedding", VList [VInt 1; VInt 2])])) sample_self
    [("contract_id", VStr "C-9")]
  = embedding_request (answering (VDict [("embedding", VList [VInt 1; VInt 2])])) sample_self
      "Contract ID: C-9" "RETRIEVAL_DOCUMENT".
Proof.
  apply (proj1 (proj2 (vectorize_methods_agree angle_str
                         (answering (VDict [("embedding", VList [VInt 1; VInt 2])]))
                         sample_self [("contract_id", VStr "C-9")] "payment terms"))).
  reflexivity.
Defined.

(** C10 as stated fails: the outcomes are not only the two it names.  On a
    list of strings both extractions return the list, which is not numeric;
    on an instance whose [values] is a string both return that string. *)
Lemma extraction_outcomes_beyond_two :
  (metadata_embedding (VList [VStr "a"; VStr "b"]) = ok (VList [VStr "a"; VStr "b"])
   /\ query_embedding (VList [VStr "a"; VStr "b"]) = ok (VList [VStr "a"; VStr "b"])
   /\ ~ stated_outcomes (VList [VStr "a"; VStr "b"]))
  /\ (metadata_embedding (VObj "vendor.ContentEmbedding" [("values", VStr "abc")] NotIterable)
      = ok (VStr "abc")
      /\ query_embedding (VObj "vendor.ContentEmbedding" [("values", VStr "abc")] NotIterable)
         = ok (VStr "abc")
      /\ ~ stated_outcomes (VObj "vendor.ContentEmbedding" [("values", VStr "abc")] NotIterable)).
Proof.
  repeat split.
  - intros [[xs [Hnum [H _]]] | [type [H _]]].
    + vm_compute in H. injection H as <-. discriminate Hnum.
    + vm_compute in H. discriminate H.
  - intros [[xs [Hnum [H _]]] | [type [H _]]]; vm_compute in H; discriminate H.
Qed.

(* ===================================================================== *)
(** * [generate_answer] *)
(* ===================================================================== *)

(** C5.  With no context texts, whatever the query and the identifiers,
    [generate_answer] returns the fixed message and calls neither the model
    constructor nor the generation service: its trace of calls is empty. *)
Theorem no_context_no_call (str_other : value -> string) (config : Config)
    (service : genai) (self : Vectorizer) (query : string)
    (contract_ids : option (list value)) :
  outcome (generate_answer str_other config service self query [] contract_ids)
  = ok "No contract context available to generate an answer."
  /\ trace (generate_answer str_other config service self query [] contract_ids) = [].
Proof. split; reflexivity. Qed.

(** ** The labels of the excerpts *)

Lemma context_parts_from_nth str_other contract_ids context_texts :
  forall start i text,
    nth_error context_texts i = Some text ->
    nth_error (context_parts_from str_other contract_ids start context_texts) i
    = Some (context_part str_other contract_ids (start + i) text).
Proof.
  induction context_texts as [|t rest IH]; intros start i text Hi.
  - destruct i; discriminate.
  - destruct i as [|i]; cbn in Hi |- *.
    + injection Hi as ->. now rewrite Nat.add_0_r.
    + rewrite (IH (S start) i text Hi). f_equal. f_equal. lia.
Qed.

(** With a working primary model, the calls are its construction and one
    generation request carrying the prompt. *)
Lemma generate_answer_trace str_other config service self query context_texts
    contract_ids m :
  nonempty context_texts = true ->
  GenerativeModel service (GEMINI_GENERATION_MODEL config) = ok m ->
  trace (generate_answer str_other config service self query context_texts contract_ids)
  = [NewModel (GEMINI_GENERATION_MODEL config);
     GenerateContent m (prompt_of str_other query context_texts contract_ids)].
Proof.
  intros Hne Hm. unfold generate_answer, initialize_model, call_GenerativeModel,
    call_generate_content, prompt_of, excerpt_separator.
  rewrite Hne, Hm. cbn.
  destruct (generate_content service m _); reflexivity.
Qed.

Lemma append_assoc (a b c : string) : (a ++ b) ++ c = a ++ b ++ c.
Proof. induction a as [|ch a IH]; cbn; [reflexivity | now rewrite IH]. Qed.

Lemma append_empty_r (a : string) : a ++ "" = a.
Proof. induction a as [|ch a IH]; cbn; [reflexivity | now rewrite IH]. Qed.

(** A part of a joined list occurs in the joined string. *)
Lemma occurs_in_join (sep : string) (parts : list string) :
  forall i part, nth_error parts i = Some part -> occurs_in part (join sep parts).
Proof.
  unfold occurs_in, join.
  induction parts as [|first rest IH]; intros i part Hi; [destruct i; discriminate|].
  destruct i as [|i]; cbn in Hi.
  - injection Hi as ->. destruct rest as [|second rest].
    + exists "", "". cbn. now rewrite append_empty_r.
    + exists "", (sep ++ String.concat sep (second :: rest)). reflexivity.
  - destruct (IH i part Hi) as [before [after Hrest]].
    destruct rest as [|second rest]; [destruct i; discriminate|].
    exists (first ++ sep ++ before), after.
    change (String.concat sep (first :: second :: rest))
      with (first ++ sep ++ String.concat sep (second :: rest)).
    rewrite Hrest. now rewrite !append_assoc.
Qed.

(** What occurs in the context occurs in the prompt. *)
Lemma occurs_in_prompt (part context query : string) :
  occurs_in part context -> occurs_in part (build_prompt context query).
Proof.
  intros [before [after ->]]. unfold occurs_in, build_prompt.
  exists ("You are a helpful assistant that answers questions about contracts based on the provided contract excerpts."
          ++ nl ++ nl ++
          "Use the following contract excerpts to answer the user's question. If the information is not available in the provided excerpts, say so clearly."
          ++ nl ++ nl ++ "Contract Excerpts:" ++ nl ++ before).
  exists (after ++ nl ++ nl ++ "User Question: " ++ query ++ nl ++ nl ++
          "Please provide a clear, accurate answer based on the contract excerpts above. If you reference specific information, mention which contract it comes from if available.").
  now rewrite !append_assoc.
Qed.

(** The models constructed: the configured one, then alternatives that
    differ from it, in order, up to the first that works. *)
Lemma try_alternatives_trace service model_name alternatives :
  exists k, trace (try_alternatives service model_name alternatives)
            = map NewModel (firstn k (other_models model_name alternatives)).
Proof.
  unfold other_models, trace. induction alternatives as [|a rest [k IH]].
  - exists 0%nat. reflexivity.
  - cbn [try_alternatives filter].
    destruct (String.eqb_spec a model_name) as [Heq|Hne]; cbn [negb].
    + exists k. exact IH.
    + unfold call_GenerativeModel.
      destruct (GenerativeModel service a) as [e|m]; cbn.
      * exists (S k). cbn [firstn map].
        destruct (try_alternatives service model_name rest) as [t r].
        cbn in IH |- *. now rewrite IH.
      * exists 1%nat. reflexivity.
Qed.

Lemma initialize_model_trace service model_name :
  exists tried,
    trace (initialize_model service model_name) = NewModel model_name :: map NewModel tried
    /\ (forall a, In a tried -> In a alternative_models /\ a <> model_name)
    /\ (List.length tried <= 3)%nat.
Proof.
  unfold initialize_model, call_GenerativeModel.
  destruct (GenerativeModel service model_name) as [e|m].
  - destruct (try_alternatives_trace service model_name alternative_models) as [k Hk].
    exists (firstn k (other_models model_name alternative_models)).
    split; [|split].
    + unfold trace in *. cbn [try_except bind].
      destruct (try_alternatives service model_name alternative_models) as [t [e'|[m|]]];
        cbn in Hk |- *; now rewrite ?app_nil_r, Hk.
    + intros a Ha.
      assert (Hin : In a (other_models model_name alternative_models)).
      { rewrite <- (firstn_skipn k). apply in_or_app. now left. }
      apply filter_In in Hin as [Hin Hneq]. split; [exact Hin|]. intros ->.
      now rewrite String.eqb_refl in Hneq.
    + rewrite length_firstn. etransitivity; [apply Nat.le_min_r|].
      unfold other_models. etransitivity; [apply filter_length_le | cbn; lia].
  - exists []. split; [reflexivity|]. split; [intros a [] | cbn; lia].
Qed.

(** Every generation request of [generate_answer] carries the prompt built
    from the query, the texts and the identifiers. *)
Lemma generation_request_prompt str_other config service self query context_texts
    contract_ids m prompt :
  In (GenerateContent m prompt)
     (trace (generate_answer str_other config service self query context_texts contract_ids)) ->
  prompt = prompt_of str_other query context_texts contract_ids.
Proof.
  unfold generate_answer, call_generate_content, prompt_of, excerpt_separator, trace.
  destruct (nonempty context_texts); cbn [negb]; [|intros []].
  destruct (initialize_model_trace service (GEMINI_GENERATION_MODEL config))
    as [tried [Htrace _]].
  unfold trace in Htrace.
  destruct (initialize_model service (GEMINI_GENERATION_MODEL config)) as [t [e|m']];
    cbn in Htrace |- *; subst t.
  - intros [H | H]; [discriminate H|].
    apply in_map_iff in H as [a [H _]]. discriminate H.
  - destruct (generate_content service m' _); cbn; rewrite ?app_nil_r;
      (intros [H | H]; [discriminate H|];
       apply in_app_or in H as [H | [H | []]];
       [apply in_map_iff in H as [a [H _]]; discriminate H | now injection H]).
Qed.

(** C3.  In the prompt [generate_answer] builds, the context text at
    position [i] is labelled [Contract ID: <id>] when the list of identifiers
    has an entry at [i], and with the generic sequential label
    [Contract Excerpt N:], N = i + 1, when the list is absent or too short;
    the label is followed by a line feed and the text.  The excerpt so
    labelled occurs in the prompt of every generation request the method
    makes, and with a working model the method makes that request. *)
Theorem excerpt_labels (str_other : value -> string) (config : Config)
    (service : genai) (self : Vectorizer) (query : string)
    (context_texts : list value) (contract_ids : option (list value))
    (i : nat) (text : value) :
  nth_error context_texts i = Some text ->
  (forall ids id, contract_ids = Some ids -> nth_error ids i = Some id ->
     nth_error (context_parts str_other context_texts contract_ids) i
     = Some ("Contract ID: " ++ str str_other id ++ nl ++ str str_other text)
     /\ forall m prompt,
          In (GenerateContent m prompt)
             (trace (generate_answer str_other config service self query context_texts
                       contract_ids)) ->
          occurs_in ("Contract ID: " ++ str str_other id ++ nl ++ str str_other text) prompt)
  /\ (contract_ids = None
      \/ (exists ids, contract_ids = Some ids /\ (List.length ids <= i)%nat) ->
      nth_error (context_parts str_other context_texts contract_ids) i
      = Some ("Contract " ++ "Excerpt " ++ str_of_nat (i + 1) ++ ":" ++ nl
              ++ str str_other text)
      /\ forall m prompt,
           In (GenerateContent m prompt)
              (trace (generate_answer str_other config service self query context_texts
                        contract_ids)) ->
           occurs_in ("Contract " ++ "Excerpt " ++ str_of_nat (i + 1) ++ ":" ++ nl
                      ++ str str_other text) prompt)
  /\ (forall m, GenerativeModel service (GEMINI_GENERATION_MODEL config) = ok m ->
      exists prompt,
        trace (generate_answer str_other config service self query context_texts contract_ids)
        = [NewModel (GEMINI_GENERATION_MODEL config); GenerateContent m prompt]
        /\ forall part,
             nth_error (context_parts str_other context_texts contract_ids) i = Some part ->
             occurs_in part prompt).
Proof.
  intros Hi.
  assert (Hsent : forall part m prompt,
            nth_error (context_parts str_other context_texts contract_ids) i = Some part ->
            In (GenerateContent m prompt)
               (trace (generate_answer str_other config service self query context_texts
                         contract_ids)) ->
            occurs_in part prompt).
  { intros part m prompt Hpart Hin.
    rewrite (generation_request_prompt _ _ _ _ _ _ _ _ _ Hin). unfold prompt_of.
    apply occurs_in_prompt. now apply (occurs_in_join _ _ i). }
  assert (Hpart : nth_error (context_parts str_other context_texts contract_ids) i
                  = Some (context_part str_other contract_ids i text)).
  { unfold context_parts. now rewrite (context_parts_from_nth _ _ _ 0%nat i text Hi). }
  split; [|split].
  - intros ids id -> Hid.
    assert (Hlabel : context_part str_other (Some ids) i text
                     = "Contract ID: " ++ str str_other id ++ nl ++ str str_other text).
    { unfold context_part.
      assert (Hlt : (i < List.length ids)%nat) by (apply nth_error_Some; congruence).
      apply Nat.ltb_lt in Hlt. rewrite Hlt.
      destruct ids as [|id0 ids']; [destruct i; discriminate|]. cbn [nonempty andb].
      now rewrite (nth_error_nth _ _ VNone Hid). }
    rewrite Hlabel in Hpart. split; [exact Hpart|].
    intros m prompt. now apply Hsent.
  - intros Hids.
    assert (Hlabel : context_part str_other contract_ids i text
                     = "Contract " ++ "Excerpt " ++ str_of_nat (i + 1) ++ ":" ++ nl
                       ++ str str_other text).
    { destruct Hids as [-> | [ids [-> Hle]]]; unfold context_part; [reflexivity|].
      apply Nat.ltb_ge in Hle. rewrite Hle. now rewrite andb_false_r. }
    rewrite Hlabel in Hpart. split; [exact Hpart|].
    intros m prompt. now apply Hsent.
  - intros m Hm. exists (prompt_of str_other query context_texts contract_ids).
    assert (Htrace : trace (generate_answer str_other config service self query
                              context_texts contract_ids)
                     = [NewModel (GEMINI_GENERATION_MODEL config);
                        GenerateContent m
                          (prompt_of str_other query context_texts contract_ids)]).
    { apply generate_answer_trace; [|exact Hm].
      destruct context_texts; [destruct i; discriminate | reflexivity]. }
    split; [exact Htrace|].
    intros part Hp. apply (Hsent part m); [exact Hp|]. rewrite Htrace. right. now left.
Qed.

Lemma excerpt_labels_run :
  (nth_error [VStr "Clause A"; VStr "Clause B"] 0 = Some (VStr "Clause A")
   /\ nth_error (context_parts angle_str [VStr "Clause A"; VStr "Clause B"]
                   (Some [VStr "C-1"])) 0
      = Some ("Contract ID: C-1" ++ nl ++ "Clause A"))
  /\ (nth_error [VStr "Clause A"; VStr "Clause B"] 1 = Some (VStr "Clause B")
      /\ nth_error (context_parts angle_str [VStr "Clause A"; VStr "Clause B"]
                      (Some [VStr "C-1"])) 1
         = Some ("Contract Excerpt 2:" ++ nl ++ "Clause B")
      /\ forall m prompt,
           In (GenerateContent m prompt)
              (trace (generate_answer angle_str sample_config (answering VNone) sample_self
                        "When is payment due?" [VStr "Clause A"; VStr "Clause B"]
                        (Some [VStr "C-1"]))) ->
           occurs_in ("Contract Excerpt 2:" ++ nl ++ "Clause B") prompt).
Proof.
  split; split.
  - reflexivity.
  - apply (proj1 (excerpt_labels angle_str sample_config (answering VNone) sample_self
                    "When is payment due?" [VStr "Clause A"; VStr "Clause B"]
                    (Some [VStr "C-1"]) 0 (VStr "Clause A") eq_refl)
             [VStr "C-1"] (VStr "C-1") eq_refl eq_refl).
  - reflexivity.
  - apply (proj1 (proj2 (excerpt_labels angle_str sample_config (answering VNone) sample_self
                           "When is payment due?" [VStr "Clause A"; VStr "Clause B"]
                           (Some [VStr "C-1"]) 1 (VStr "Clause B") eq_refl))).
    right. exists [VStr "C-1"]. split; [reflexivity | cbn; lia].
Defined.

(** ** The fallback over the model names *)

Lemma try_alternatives_all_fail service model_name alternatives :
  (forall alt, In alt alternatives -> alt <> model_name ->
               exists e, GenerativeModel service alt = raise e) ->
  try_alternatives service model_name alternatives
  = (map NewModel (filter (fun alt => negb (String.eqb alt model_name)) alternatives),
     ok None).
Proof.
  induction alternatives as [|alt rest IH]; intros Hfail; [reflexivity|].
  cbn [try_alternatives filter].
  assert (Hrest : forall a, In a rest -> a <> model_name ->
                            exists e, GenerativeModel service a = raise e)
    by (intros a Ha; apply Hfail; now right).
  destruct (String.eqb_spec alt model_name) as [Heq|Hne]; cbn [negb].
  - now apply IH.
  - destruct (Hfail alt (or_introl eq_refl) Hne) as [e He].
    unfold call_GenerativeModel. rewrite He. cbn.
    rewrite (IH Hrest). reflexivity.
Qed.

(** C4, as the code has it.  When the primary model identifier and every
    alternative fail to initialise, [generate_answer] raises a new
    [ValueError] whose message is [Could not initialize any Gemini model.
    Original error: ] followed by the message of the primary model's error;
    the calls made are the model constructions alone, and the exception
    raised is never the primary model's error itself. *)
Theorem all_models_fail (str_other : value -> string) (config : Config)
    (service : genai) (self : Vectorizer) (query : string)
    (context_texts : list value) (contract_ids : option (list value))
    (model_error : exception) :
  nonempty context_texts = true ->
  GenerativeModel service (GEMINI_GENERATION_MODEL config) = raise model_error ->
  (forall alt, In alt alternative_models -> alt <> GEMINI_GENERATION_MODEL config ->
               exists e, GenerativeModel service alt = raise e) ->
  outcome (generate_answer str_other config service self query context_texts contract_ids)
  = raise (ValueError ("Could not initialize any Gemini model. Original error: "
                       ++ exc_message model_error))
  /\ trace (generate_answer str_other config service self query context_texts contract_ids)
     = all_attempts (GEMINI_GENERATION_MODEL config)
  /\ outcome (generate_answer str_other config service self query context_texts contract_ids)
     <> raise model_error.
Proof.
  intros Hne Hprimary Halts.
  assert (Hrun : generate_answer str_other config service self query context_texts contract_ids
                 = (all_attempts (GEMINI_GENERATION_MODEL config),
                    raise (ValueError ("Could not initialize any Gemini model. Original error: "
                                       ++ exc_message model_error)))).
  { unfold generate_answer, initialize_model, call_GenerativeModel.
    rewrite Hne, Hprimary, (try_alternatives_all_fail _ _ _ Halts).
    unfold ok, throw, raise. cbn [negb try_except bind].
    unfold all_attempts. now rewrite app_nil_r. }
  rewrite Hrun. unfold outcome, trace. cbn [fst snd]. repeat split.
  intros Heq. destruct model_error as [cls msg].
  unfold raise, ValueError in Heq. cbn [exc_message] in Heq.
  injection Heq as _ Hmsg. apply (f_equal String.length) in Hmsg.
  cbn in Hmsg. lia.
Qed.

Lemma all_models_fail_run :
  nonempty [VStr "Clause A"] = true
  /\ outcome (generate_answer angle_str sample_config
                (unavailable (Raise "NotFound" "404 model not found")) sample_self
                "When is payment due?" [VStr "Clause A"] None)
     = raise (ValueError
                "Could not initialize any Gemini model. Original error: 404 model not found").
Proof.
  split.
  - reflexivity.
  - apply (all_models_fail angle_str sample_config
             (unavailable (Raise "NotFound" "404 model not found")) sample_self
             "When is payment due?" [VStr "Clause A"] None
             (Raise "NotFound" "404 model not found") eq_refl eq_refl).
    intros alt _ _. exists (Raise "NotFound" "404 model not found"). reflexivity.
Defined.

(** C4 as stated fails: with every model construction failing with the same
    [NotFound] error, what [generate_answer] raises is a [ValueError] that
    quotes the message, not that error. *)
Lemma original_error_not_raised :
  (forall name,
     GenerativeModel (unavailable (Raise "NotFound" "404 model not found")) name
     = raise (Raise "NotFound" "404 model not found"))
  /\ outcome (generate_answer angle_str sample_config
                (unavailable (Raise "NotFound" "404 model not found")) sample_self
                "When is payment due?" [VStr "Clause A"] None)
     = raise (Raise "ValueError"
                "Could not initialize any Gemini model. Original error: 404 model not found")
  /\ outcome (generate_answer angle_str sample_config
                (unavailable (Raise "NotFound" "404 model not found")) sample_self
                "When is payment due?" [VStr "Clause A"] None)
     <> raise (Raise "NotFound" "404 model not found").
Proof.
  repeat split. vm_compute. discriminate.
Qed.

(** ** The answer text *)

Lemma generate_answer_outcome str_other config service self query context_texts
    contract_ids m response :
  nonempty context_texts = true ->
  outcome (initialize_model service (GEMINI_GENERATION_MODEL config)) = ok m ->
  generate_content service m (prompt_of str_other query context_texts contract_ids)
  = ok response ->
  outcome (generate_answer str_other config service self query context_texts contract_ids)
  = answer_of_response str_other response.
Proof.
  intros Hne Hm Hresp. unfold generate_answer. rewrite Hne. cbn [negb].
  unfold prompt_of, excerpt_separator in Hresp.
  destruct (initialize_model service (GEMINI_GENERATION_MODEL config)) as [t [e|m']];
    cbn in Hm; [discriminate|]. injection Hm as ->.
  unfold call_generate_content, outcome, lift, ok in *. cbn [bind]. rewrite Hresp.
  reflexivity.
Qed.

(** An answer with a false value, [None] or the empty string among them, is
    refused. *)
Lemma checked_answer_false str_other response answer :
  truthy answer = false ->
  exists msg, checked_answer str_other response answer = raise (ValueError msg)
              /\ descriptive msg.
Proof.
  intros Hfalse. unfold checked_answer. rewrite Hfalse. cbn [negb andb].
  unfold hasattr, attr.
  destruct (getattr response "prompt_feedback") as [feedback|]; cbn [rbind ok].
  - destruct (getattr feedback "block_reason") as [block_reason|].
    + destruct (truthy block_reason); cbn [rbind ok raise].
      * eexists. split; [reflexivity|]. right; right. eexists. reflexivity.
      * eexists. split; [reflexivity|]. now left.
    + cbn [rbind ok]. eexists. split; [reflexivity|]. now left.
  - eexists. split; [reflexivity|]. now left.
Qed.

(** A non-empty answer text is stripped, and refused when nothing is left. *)
Lemma checked_answer_text str_other response s :
  s <> "" ->
  checked_answer str_other response (VStr s)
  = if String.eqb (strip s) "" then raise (ValueError "Generated answer is empty")
    else ok (strip s).
Proof.
  intros Hs. unfold checked_answer. cbn [truthy].
  destruct (String.eqb_spec s "") as [->|_]; [contradiction|]. reflexivity.
Qed.

(** C6.  Once the generation service has answered: when [generate_answer]
    locates an answer text, it returns the text stripped of leading and
    trailing white space, or raises a [ValueError] with a descriptive message
    when the text is empty or white space only; when it locates nothing (the
    answer is [None], or any false value), it raises a [ValueError] with a
    descriptive message. *)
Theorem answer_text_checked (str_other : value -> string) (config : Config)
    (service : genai) (self : Vectorizer) (query : string)
    (context_texts : list value) (contract_ids : option (list value))
    (m : handle) (response : value) :
  nonempty context_texts = true ->
  outcome (initialize_model service (GEMINI_GENERATION_MODEL config)) = ok m ->
  generate_content service m (prompt_of str_other query context_texts contract_ids)
  = ok response ->
  (forall s, located_answer str_other response = ok (VStr s) -> strip s <> "" ->
     outcome (generate_answer str_other config service self query context_texts contract_ids)
     = ok (strip s))
  /\ (forall s, located_answer str_other response = ok (VStr s) -> strip s = "" ->
        exists msg,
          outcome (generate_answer str_other config service self query context_texts
                     contract_ids)
          = raise (ValueError msg)
          /\ descriptive msg)
  /\ (forall answer, located_answer str_other response = ok answer ->
        truthy answer = false ->
        exists msg,
          outcome (generate_answer str_other config service self query context_texts
                     contract_ids)
          = raise (ValueError msg)
          /\ descriptive msg).
Proof.
  intros Hne Hm Hresp.
  rewrite (generate_answer_outcome _ _ _ _ _ _ _ _ _ Hne Hm Hresp).
  unfold answer_of_response. split; [|split].
  - intros s Hloc Hstrip. rewrite Hloc. cbn [rbind ok].
    assert (Hs : s <> "") by (intros ->; now apply Hstrip).
    rewrite (checked_answer_text _ _ _ Hs).
    destruct (String.eqb_spec (strip s) ""); [contradiction | reflexivity].
  - intros s Hloc Hstrip. rewrite Hloc. cbn [rbind ok].
    destruct (String.eqb_spec s "") as [->|Hs].
    + now apply checked_answer_false.
    + rewrite (checked_answer_text _ _ _ Hs), Hstrip. cbn.
      eexists. split; [reflexivity|]. right. now left.
  - intros answer Hloc Hfalse. rewrite Hloc. cbn [rbind ok].
    now apply checked_answer_false.
Qed.

Lemma answer_text_checked_run :
  (nonempty [VStr "Clause A"] = true
   /\ outcome (generate_answer angle_str sample_config
                 (answering (VObj "google.generativeai.types.GenerateContentResponse"
                               [("text", VStr ("  Net 30 days. " ++ nl))] NotIterable))
                 sample_self "When is payment due?" [VStr "Clause A"] None)
      = ok "Net 30 days.")
  /\ exists msg,
       outcome (generate_answer angle_str sample_config
                  (answering
                     (VObj "google.generativeai.types.GenerateContentResponse"
                        [("candidates",
                          VList [VObj "google.generativeai.protos.Candidate"
                                   [("content",
                                     VObj "google.generativeai.protos.Content"
                                       [("parts",
                                         VList [VObj "google.generativeai.protos.Part" [("text", VStr "   ")] NotIterable])]
                                       NotIterable)]
                                   NotIterable])]
                        NotIterable))
                  sample_self "When is payment due?" [VStr "Clause A"] None)
       = raise (ValueError msg)
       /\ descriptive msg.
Proof.
  split; [split|].
  - reflexivity.
  - apply (proj1 (answer_text_checked angle_str sample_config
                    (answering (VObj "google.generativeai.types.GenerateContentResponse"
                                  [("text", VStr ("  Net 30 days. " ++ nl))] NotIterable))
                    sample_self "When is payment due?" [VStr "Clause A"] None
                    "gemini-1.5-flash"
                    (VObj "google.generativeai.types.GenerateContentResponse"
                       [("text", VStr ("  Net 30 days. " ++ nl))] NotIterable)
                    eq_refl eq_refl eq_refl)
             ("  Net 30 days. " ++ nl) eq_refl).
    vm_compute. discriminate.
  - apply (proj1 (proj2 (answer_text_checked angle_str sample_config
                    (answering
                       (VObj "google.generativeai.types.GenerateContentResponse"
                          [("candidates",
                            VList [VObj "google.generativeai.protos.Candidate"
                                     [("content",
                                       VObj "google.generativeai.protos.Content"
                                         [("parts",
                                           VList [VObj "google.generativeai.protos.Part" [("text", VStr "   ")]
                                                    NotIterable])]
                                         NotIterable)]
                                     NotIterable])]
                          NotIterable))
                    sample_self "When is payment due?" [VStr "Clause A"] None
                    "gemini-1.5-flash" _ eq_refl eq_refl eq_refl))
             "   " eq_refl eq_refl).
Defined.

(* ===================================================================== *)
(** * The report of the upload tester *)
(* ===================================================================== *)

Lemma print_items_eq (line : string -> value -> string) (items : dict) :
  print_items line items
  = (map (fun kv => Print (line (fst kv) (snd kv))) items, ok tt).
Proof.
  induction items as [|[key v] rest IH]; [reflexivity|].
  cbn [print_items]. rewrite IH. reflexivity.
Qed.

(** C8, as the code has it.  On a 200 response whose JSON body is a mapping
    with a metadata mapping, both paths print, after the heading, one line
    per key/value pair, in order.  The invoice path prints every pair in
    full.  The contract path prints in full every pair but one: the field
    named [text], when its value is true and its string is longer than 200
    characters, is cut to its first 200 characters, followed by a note of the
    full length. *)
Theorem upload_report_lines (str_other : value -> string) (pdf_path text : string)
    (body metadata : dict) :
  lookup "metadata" body = Some (VDict metadata) ->
  test_upload_invoice str_other true (ok tt) pdf_path
    (Response 200 text (ok (VDict body)))
  = ((Print ("Uploading invoice: " ++ pdf_path ++ "...")
      :: Post url "invoice" pdf_path
      :: success_header str_other (get body "message")
      ++ map (fun kv => Print (full_line str_other (fst kv) (snd kv))) metadata)%list,
     ok tt)
  /\ test_upload_contract str_other true (ok tt) pdf_path
       (Response 200 text (ok (VDict body)))
     = ((Print ("Uploading contract: " ++ pdf_path ++ "...")
         :: Post url "contract" pdf_path
         :: success_header str_other (get body "message")
         ++ map (fun kv => Print (contract_line str_other (fst kv) (snd kv))) metadata)%list,
        ok tt)
  /\ (forall key v, key <> "text" ->
        contract_line str_other key v = full_line str_other key v)
  /\ (forall v, truthy v = false \/ (String.length (str str_other v) <= 200)%nat ->
        contract_line str_other "text" v = full_line str_other "text" v)
  /\ (forall v, truthy v = true -> (200 < String.length (str str_other v))%nat ->
        contract_line str_other "text" v = truncated_line str_other "text" v).
Proof.
  intros Hmeta. repeat split.
  - unfold test_upload_invoice, invoice_request, invoice_success, call_get, call_items,
      get_default, print, success_header, get.
    cbn. rewrite Hmeta. cbn. rewrite print_items_eq. cbn.
    destruct (lookup "message" body); reflexivity.
  - unfold test_upload_contract, contract_request, contract_success, call_get, call_items,
      get_default, print, success_header, get.
    cbn. rewrite Hmeta. cbn. rewrite print_items_eq. cbn.
    destruct (lookup "message" body); reflexivity.
  - intros key v Hkey. unfold contract_line.
    destruct (String.eqb_spec key "text"); [contradiction | reflexivity].
  - intros v Hv. unfold contract_line. cbn [String.eqb Ascii.eqb Bool.eqb andb].
    destruct Hv as [-> | Hlen]; [reflexivity|].
    apply Nat.ltb_ge in Hlen. rewrite Hlen. now rewrite andb_false_r.
  - intros v Hv Hlen. unfold contract_line. cbn [String.eqb Ascii.eqb Bool.eqb andb].
    apply Nat.ltb_lt in Hlen. now rewrite Hv, Hlen.
Qed.

Lemma upload_report_lines_run :
  lookup "metadata"
    [("message", VStr "Document processed");
     ("metadata", VDict [("contract_id", VStr "C-9"); ("text", VStr (repeat_string 201 "x"))])]
  = Some (VDict [("contract_id", VStr "C-9"); ("text", VStr (repeat_string 201 "x"))])
  /\ test_upload_contract angle_str true (ok tt) "c.pdf"
       (Response 200 ""
          (ok (VDict
                 [("message", VStr "Document processed");
                  ("metadata",
                   VDict [("contract_id", VStr "C-9");
                          ("text", VStr (repeat_string 201 "x"))])])))
     = ([Print "Uploading contract: c.pdf...";
         Post url "contract" "c.pdf";
         Print (nl ++ check_mark ++ " Success!");
         Print "Message: Document processed";
         Print (nl ++ "Extracted Metadata:");
         Print "  contract_id: C-9";
         Print ("  text: " ++ repeat_string 200 "x"
                ++ "... (truncated, full length: 201 chars)")],
        ok tt).
Proof.
  split.
  - reflexivity.
  - apply (upload_report_lines angle_str "c.pdf" ""
             [("message", VStr "Document processed");
              ("metadata",
               VDict [("contract_id", VStr "C-9"); ("text", VStr (repeat_string 201 "x"))])]
             [("contract_id", VStr "C-9"); ("text", VStr (repeat_string 201 "x"))]).
    reflexivity.
Defined.

(** C8 as stated fails: the invoice path prints a [text] of 201 characters
    in full, and so does the contract path with a [summary] of 201
    characters; neither prints the truncated line. *)
Lemma long_fields_printed_in_full :
  long_text (VStr (repeat_string 201 "x")) = true
  /\ (In (Print (full_line angle_str "text" (VStr (repeat_string 201 "x"))))
         (trace (test_upload_invoice angle_str true (ok tt) "i.pdf"
                   (Response 200 ""
                      (ok (upload_body (VStr "Document processed")
                             [("text", VStr (repeat_string 201 "x"))])))))
      /\ ~ In (Print (truncated_line angle_str "text" (VStr (repeat_string 201 "x"))))
              (trace (test_upload_invoice angle_str true (ok tt) "i.pdf"
                        (Response 200 ""
                           (ok (upload_body (VStr "Document processed")
                                  [("text", VStr (repeat_string 201 "x"))]))))))
  /\ (In (Print (full_line angle_str "summary" (VStr (repeat_string 201 "x"))))
         (trace (test_upload_contract angle_str true (ok tt) "c.pdf"
                   (Response 200 ""
                      (ok (upload_body (VStr "Document processed")
                             [("summary", VStr (repeat_string 201 "x"))])))))
      /\ ~ In (Print (truncated_line angle_str "summary" (VStr (repeat_string 201 "x"))))
              (trace (test_upload_contract angle_str true (ok tt) "c.pdf"
                        (Response 200 ""
                           (ok (upload_body (VStr "Document processed")
                                  [("summary", VStr (repeat_string 201 "x"))])))))).
Proof.
  split; [reflexivity|]. split; split.
  - vm_compute. tauto.
  - vm_compute. intros H. repeat (destruct H as [H|H]; [discriminate H|]). exact H.
  - vm_compute. tauto.
  - vm_compute. intros H. repeat (destruct H as [H|H]; [discriminate H|]). exact H.
Qed.

(* ===================================================================== *)
(** * Runs *)
(* ===================================================================== *)

Example contract_metadata_text :
  metadata_text angle_str
    [("summary", VStr "Net 30"); ("text", VStr "Payment is due in 30 days.");
     ("contract_id", VStr "C-9")]
  = ok "Contract ID: C-9 | Text: Payment is due in 30 days. | Summary: Net 30".
Proof. reflexivity. Qed.

Example empty_metadata_text : metadata_text angle_str [] = ok "".
Proof. reflexivity. Qed.

Example embedding_under_key :
  trace (vectorize_query
           (answering (VDict [("embedding", VList [VInt 1; VInt 2; VInt 3])]))
           sample_self "payment terms")
  = [EmbedContent "models/text-embedding-004" "payment terms" "RETRIEVAL_QUERY"]
  /\ outcome (vectorize_query
                (answering (VDict [("embedding", VList [VInt 1; VInt 2; VInt 3])]))
                sample_self "payment terms")
     = ok (VList [VInt 1; VInt 2; VInt 3]).
Proof. split; reflexivity. Qed.

Example embedding_of_number_rejected :
  query_embedding (VInt 7) = raise (ValueError "Unexpected embedding format: <class 'int'>").
Proof. reflexivity. Qed.

(** The primary model fails, the first alternative fails, the primary is not
    tried again, the last alternative works. *)
Example fallback_to_last_alternative :
  trace (generate_answer angle_str sample_config
           (only_model "gemini-pro"
              (VObj "google.generativeai.types.GenerateContentResponse" [("text", VStr "Net 30.")] NotIterable))
           sample_self "When is payment due?" [VStr "Clause A"] (Some [VStr "C-1"]))
  = [NewModel "gemini-1.5-flash"; NewModel "gemini-1.5-pro"; NewModel "gemini-pro";
     GenerateContent "gemini-pro"
       (prompt_of angle_str "When is payment due?" [VStr "Clause A"] (Some [VStr "C-1"]))]
  /\ outcome (generate_answer angle_str sample_config
                (only_model "gemini-pro"
                   (VObj "google.generativeai.types.GenerateContentResponse" [("text", VStr "Net 30.")] NotIterable))
                sample_self "When is payment due?" [VStr "Clause A"] (Some [VStr "C-1"]))
     = ok "Net 30.".
Proof. split; reflexivity. Qed.

Example blocked_prompt :
  answer_of_response angle_str
    (VObj "google.generativeai.types.GenerateContentResponse"
       [("candidates", VList []);
        ("prompt_feedback", VObj "google.generativeai.protos.GenerateContentResponse.PromptFeedback" [("block_reason", VStr "SAFETY")] NotIterable)]
       NotIterable)
  = raise (ValueError "Content was blocked: SAFETY").
Proof. reflexivity. Qed.

Example upload_missing_file :
  test_upload_invoice angle_str false (ok tt) "missing.pdf" ConnectionError
  = ([Print "Error: File not found: missing.pdf"], ok tt).
Proof. reflexivity. Qed.

Example upload_server_error :
  test_upload_contract angle_str true (ok tt) "c.pdf"
    (Response 500 "Internal Server Error" (ok VNone))
  = ([Print "Uploading contract: c.pdf..."; Post url "contract" "c.pdf";
      Print (nl ++ cross_mark ++ " Error: 500"); Print "Internal Server Error"],
     ok tt).
Proof. reflexivity. Qed.

Example upload_body_not_a_mapping :
  test_upload_invoice angle_str true (ok tt) "i.pdf" (Response 200 "[]" (ok (VList [])))
  = ([Print "Uploading invoice: i.pdf..."; Post url "invoice" "i.pdf";
      Print (nl ++ check_mark ++ " Success!");
      Print "Error: 'list' object has no attribute 'get'"],
     ok tt).
Proof. reflexivity. Qed.

(** A path that exists and cannot be opened, a directory: the exception of
    [open] leaves the function before anything is printed or sent. *)
Example upload_of_a_directory :
  test_upload_invoice angle_str true
    (raise (Raise "IsADirectoryError" "[Errno 21] Is a directory: 'invoices'"))
    "invoices" (Response 200 "" (ok VNone))
  = ([], raise (Raise "IsADirectoryError" "[Errno 21] Is a directory: 'invoices'")).
Proof. reflexivity. Qed.

(** An exception of the [requests] connection class raised while the body is
    read is handled by the first clause, not by the last. *)
Example connection_lost_while_reading :
  trace (test_upload_invoice angle_str true (ok tt) "i.pdf"
           (Response 200 ""
              (raise (Raise "requests.exceptions.ConnectionError" "Connection aborted."))))
  = Print "Uploading invoice: i.pdf..." :: Post url "invoice" "i.pdf"
    :: connection_error_lines.
Proof. reflexivity. Qed.

(* ===================================================================== *)
(** * Further properties of [Vectorizer] *)
(* ===================================================================== *)

(** ** The constructor *)

(** X1.  [__init__] configures the client with [GEMINI_API_KEY] when it is
    set and with [VERTEX_AI] otherwise; the key it passes on is never a false
    value; with both keys unset it raises a [ValueError] before the client is
    touched; the object it returns carries the configured embedding model. *)
Theorem init_key_choice (config : Config) :
  (truthy (GEMINI_API_KEY config) = true ->
     init config = ([Configure (GEMINI_API_KEY config)],
                    ok {| model := EMBEDDING_MODEL config |}))
  /\ (truthy (GEMINI_API_KEY config) = false -> truthy (VERTEX_AI config) = true ->
        init config = ([Configure (VERTEX_AI config)],
                       ok {| model := EMBEDDING_MODEL config |}))
  /\ (truthy (GEMINI_API_KEY config) = false -> truthy (VERTEX_AI config) = false ->
        init config
        = ([], raise (ValueError
                        "GEMINI_API_KEY or VERTEX_AI must be set in environment variables")))
  /\ (forall key, In (Configure key) (trace (init config)) -> truthy key = true).
Proof.
  unfold init. repeat split.
  - intros Hg. rewrite Hg, Hg. reflexivity.
  - intros Hg Hv. rewrite Hg, Hv. reflexivity.
  - intros Hg Hv. rewrite Hg, Hv. reflexivity.
  - intros key. destruct (truthy (GEMINI_API_KEY config)) eqn:Hg.
    + rewrite Hg. cbn. intros [H|[]]. now injection H as <-.
    + destruct (truthy (VERTEX_AI config)) eqn:Hv; cbn.
      * intros [H|[]]. now injection H as <-.
      * intros [].
Qed.

Lemma init_key_choice_run :
  init {| GEMINI_API_KEY := VStr ""; VERTEX_AI := VStr "vertex-key";
          EMBEDDING_MODEL := "models/text-embedding-004";
          GEMINI_GENERATION_MODEL := "gemini-1.5-flash" |}
  = ([Configure (VStr "vertex-key")], ok {| model := "models/text-embedding-004" |}).
Proof.
  apply (proj1 (proj2 (init_key_choice
                         {| GEMINI_API_KEY := VStr ""; VERTEX_AI := VStr "vertex-key";
                            EMBEDDING_MODEL := "models/text-embedding-004";
                            GEMINI_GENERATION_MODEL := "gemini-1.5-flash" |})));
    reflexivity.
Defined.

(** ** Failures of the embedding service *)

(** X2.  [vectorize_query] raises exactly what the embedding service raises
    or, when the service answers, what the extraction raises on the answer;
    so does [vectorize_metadata] once its text is built: a failure of the
    service reaches the caller unchanged. *)
Theorem vectorize_raises_from (str_other : value -> string) (service : genai)
    (self : Vectorizer) (metadata : dict) (query_text : string) (e : exception) :
  (outcome (vectorize_query service self query_text) = raise e
   <-> embed_content service (model self) query_text "RETRIEVAL_QUERY" = raise e
       \/ exists r, embed_content service (model self) query_text "RETRIEVAL_QUERY" = ok r
                    /\ query_embedding r = raise e)
  /\ (forall text,
        metadata_text str_other metadata = ok text ->
        (outcome (vectorize_metadata str_other service self metadata) = raise e
         <-> embed_content service (model self) text "RETRIEVAL_DOCUMENT" = raise e
             \/ exists r,
                  embed_content service (model self) text "RETRIEVAL_DOCUMENT" = ok r
                  /\ metadata_embedding r = raise e)).
Proof.
  split.
  - unfold vectorize_query, call_embed_content, outcome, lift. cbn [bind].
    destruct (embed_content service (model self) query_text "RETRIEVAL_QUERY")
      as [e'|r]; cbn [snd].
    + split; [intros H; now left | intros [H | [r [H _]]]; [exact H | discriminate]].
    + split.
      * intros H. right. exists r. split; [reflexivity | exact H].
      * intros [H | [r' [Hr H]]]; [discriminate|]. injection Hr as ->. exact H.
  - intros text Htext. unfold vectorize_metadata, call_embed_content, outcome, lift.
    rewrite Htext. unfold ok. cbn [bind app].
    destruct (embed_content service (model self) text "RETRIEVAL_DOCUMENT")
      as [e'|r]; cbn [snd].
    + split; [intros H; now left | intros [H | [r [H _]]]; [exact H | discriminate]].
    + split.
      * intros H. right. exists r. split; [reflexivity | exact H].
      * intros [H | [r' [Hr H]]]; [discriminate|]. injection Hr as ->. exact H.
Qed.

Lemma vectorize_raises_from_run :
  outcome (vectorize_metadata angle_str
             (unavailable (Raise "ResourceExhausted" "429 quota exceeded")) sample_self
             [("contract_id", VStr "C-9")])
  = raise (Raise "ResourceExhausted" "429 quota exceeded").
Proof.
  apply (proj2 (vectorize_raises_from angle_str
                  (unavailable (Raise "ResourceExhausted" "429 quota exceeded")) sample_self
                  [("contract_id", VStr "C-9")] "payment terms"
                  (Raise "ResourceExhausted" "429 quota exceeded"))
           "Contract ID: C-9" eq_refl).
  left. reflexivity.
Defined.

(** ** The derived text in general *)

(** X3.  For every metadata mapping, whenever the derived text is built it
    is the labelled segments of the recognised fields whose value is true,
    joined by [" | "], in one fixed order: the six invoice fields, then the
    contract id, the contract text and the summary.  It has at most nine
    segments. *)
Theorem derived_text_all_fields (str_other : value -> string) (metadata : dict) :
  (forall text_parts,
     metadata_text_parts str_other metadata = ok text_parts ->
     text_parts
     = segments str_other (is_set metadata) metadata
         [("invoice_id", "Invoice ID: "); ("seller_name", "Seller: ");
          ("seller_address", "Address: "); ("tax_id", "Tax ID: ");
          ("subtotal_amount", "Subtotal: "); ("tax_amount", "Tax: ");
          ("contract_id", "Contract ID: "); ("text", "Text: ");
          ("summary", "Summary: ")]
     /\ (List.length text_parts <= 9)%nat)
  /\ (forall text,
        metadata_text str_other metadata = ok text ->
        text
        = join " | " (segments str_other (is_set metadata) metadata
                        [("invoice_id", "Invoice ID: "); ("seller_name", "Seller: ");
                         ("seller_address", "Address: "); ("tax_id", "Tax ID: ");
                         ("subtotal_amount", "Subtotal: "); ("tax_amount", "Tax: ");
                         ("contract_id", "Contract ID: "); ("text", "Text: ");
                         ("summary", "Summary: ")])).
Proof.
  split.
  - intros text_parts H. rewrite metadata_text_parts_eq in H. injection H as <-.
    split; [reflexivity|].
    unfold segments. rewrite length_map.
    etransitivity; [apply filter_length_le | cbn; lia].
  - intros text H. rewrite metadata_text_eq in H. now injection H as <-.
Qed.

Lemma derived_text_all_fields_run :
  "Tax ID: 44 | Contract ID: C-9 | Summary: Net 30"
  = join " | " (segments angle_str
                  (is_set [("summary", VStr "Net 30"); ("contract_id", VStr "C-9");
                           ("tax_id", VInt 44); ("text", VStr "")])
                  [("summary", VStr "Net 30"); ("contract_id", VStr "C-9");
                   ("tax_id", VInt 44); ("text", VStr "")]
                  [("invoice_id", "Invoice ID: "); ("seller_name", "Seller: ");
                   ("seller_address", "Address: "); ("tax_id", "Tax ID: ");
                   ("subtotal_amount", "Subtotal: "); ("tax_amount", "Tax: ");
                   ("contract_id", "Contract ID: "); ("text", "Text: ");
                   ("summary", "Summary: ")]).
Proof.
  apply (proj2 (derived_text_all_fields angle_str
                  [("summary", VStr "Net 30"); ("contract_id", VStr "C-9");
                   ("tax_id", VInt 44); ("text", VStr "")])).
  reflexivity.
Defined.

Lemma segments_same_on str_other metadata metadata' fields :
  (forall field, In field fields -> get metadata (fst field) = get metadata' (fst field)) ->
  segments str_other (is_set metadata) metadata fields
  = segments str_other (is_set metadata') metadata' fields.
Proof.
  induction fields as [|[key label] rest IH]; intros Hsame; [reflexivity|].
  rewrite !segments_cons, IH by (intros f Hf; apply Hsame; now right).
  pose proof (Hsame (key, label) (or_introl eq_refl)) as Hkey. cbn [fst] in Hkey.
  cbn [fst]. unfold is_set, segment. cbn [fst snd]. now rewrite Hkey.
Qed.

(** X4.  The derived text, and with it the whole run of
    [vectorize_metadata], depends on the mapping only through the values of
    the nine recognised keys: keys the code does not know are ignored, and
    the order in which the mapping holds its items does not matter. *)
Theorem derived_text_by_values (str_other : value -> string) (service : genai)
    (self : Vectorizer) (metadata metadata' : dict) :
  (forall field, In field recognised_fields ->
                 get metadata (fst field) = get metadata' (fst field)) ->
  metadata_text str_other metadata = metadata_text str_other metadata'
  /\ vectorize_metadata str_other service self metadata
     = vectorize_metadata str_other service self metadata'.
Proof.
  intros Hsame.
  assert (Htext : metadata_text str_other metadata = metadata_text str_other metadata').
  { rewrite !metadata_text_eq. now rewrite (segments_same_on _ _ _ _ Hsame). }
  split; [exact Htext|]. unfold vectorize_metadata. now rewrite Htext.
Qed.

Lemma derived_text_by_values_run :
  metadata_text angle_str
    [("summary", VStr "Net 30"); ("page_count", VInt 4); ("contract_id", VStr "C-9")]
  = metadata_text angle_str [("contract_id", VStr "C-9"); ("summary", VStr "Net 30")].
Proof.
  apply (derived_text_by_values angle_str (answering VNone) sample_self
           [("summary", VStr "Net 30"); ("page_count", VInt 4); ("contract_id", VStr "C-9")]
           [("contract_id", VStr "C-9"); ("summary", VStr "Net 30")]).
  intros field Hin. cbn in Hin.
  repeat (destruct Hin as [<-|Hin]; [reflexivity|]). destruct Hin.
Defined.

Lemma segments_unset str_other metadata fields :
  (forall field, In field fields -> is_set metadata (fst field) = false) ->
  segments str_other (is_set metadata) metadata fields = [].
Proof.
  induction fields as [|field rest IH]; intros Hunset; [reflexivity|].
  rewrite segments_cons, (Hunset field (or_introl eq_refl)), IH; [reflexivity|].
  intros f Hf. apply Hunset. now right.
Qed.

(** X5.  When no recognised field has a true value, as for the empty
    mapping, the derived text is the empty string, and [vectorize_metadata]
    still sends it: the one call it makes asks for the embedding of [""]. *)
Theorem unset_metadata_empty_request (str_other : value -> string) (service : genai)
    (self : Vectorizer) (metadata : dict) :
  (forall field, In field recognised_fields -> is_set metadata (fst field) = false) ->
  metadata_text str_other metadata = ok ""
  /\ trace (vectorize_metadata str_other service self metadata)
     = [EmbedContent (model self) "" "RETRIEVAL_DOCUMENT"].
Proof.
  intros Hunset.
  assert (Htext : metadata_text str_other metadata = ok "").
  { rewrite metadata_text_eq, (segments_unset _ _ _ Hunset). reflexivity. }
  split; [exact Htext|].
  unfold vectorize_metadata, call_embed_content, trace, lift. rewrite Htext. cbn [bind ok].
  destruct (embed_content service (model self) "" "RETRIEVAL_DOCUMENT"); reflexivity.
Qed.

Lemma unset_metadata_empty_request_run :
  metadata_text angle_str [("invoice_id", VStr ""); ("tax_amount", VInt 0); ("note", VStr "x")]
  = ok "".
Proof.
  apply (unset_metadata_empty_request angle_str (answering VNone) sample_self
           [("invoice_id", VStr ""); ("tax_amount", VInt 0); ("note", VStr "x")]).
  intros field Hin. cbn in Hin.
  repeat (destruct Hin as [<-|Hin]; [reflexivity|]). destruct Hin.
Defined.

(** ** A dict where the vector should be *)

(** X6.  When what the extraction unwraps is still a dict (the response is a
    dict without an [embedding] key, or with a dict under that key, or an
    instance whose [embedding] attribute is a dict without a [values] key),
    the [values] it reads is the method of the dict, and both vectorising
    methods end in the [TypeError] of [len] on that method. *)
Theorem dict_embedding_type_error (r : value) :
  (exists d, r = VDict d
             /\ (lookup "embedding" d = None
                 \/ exists d', lookup "embedding" d = Some (VDict d')))
  \/ (exists cls attrs coll d',
        r = VObj cls attrs coll
        /\ lookup "embedding" attrs = Some (VDict d')
        /\ lookup "values" d' = None) ->
  metadata_embedding r
  = raise (TypeError "object of type 'builtin_function_or_method' has no len()")
  /\ query_embedding r
     = raise (TypeError "object of type 'builtin_function_or_method' has no len()").
Proof.
  intros Hr. rewrite embedding_blocks_agree. split;
  (destruct Hr as [[d [-> [Hnone | [d' Hsome]]]] | [cls [attrs [coll [d' [-> [He Hv]]]]]]];
   unfold query_embedding, hasattr, attr, getattr; cbn; unfold get_default;
   [ rewrite Hnone; reflexivity
   | rewrite Hsome; reflexivity
   | rewrite He; cbn; unfold get_default; rewrite Hv; reflexivity ]).
Qed.

Lemma dict_embedding_type_error_run :
  query_embedding (VDict [("error", VStr "quota exceeded")])
  = raise (TypeError "object of type 'builtin_function_or_method' has no len()").
Proof.
  apply (dict_embedding_type_error (VDict [("error", VStr "quota exceeded")])).
  left. exists [("error", VStr "quota exceeded")]. split; [reflexivity|]. now left.
Defined.

(* ===================================================================== *)
(** * Further properties of [generate_answer] *)
(* ===================================================================== *)

(** ** The fallback over the model names *)

Lemma try_alternatives_first_success service model_name pre alt post m :
  (forall a, In a pre -> a <> model_name -> exists e, GenerativeModel service a = raise e) ->
  alt <> model_name ->
  GenerativeModel service alt = ok m ->
  try_alternatives service model_name (pre ++ alt :: post)
  = ((map NewModel (other_models model_name pre) ++ [NewModel alt])%list, ok (Some m)).
Proof.
  intros Hpre Halt Hm. induction pre as [|a pre IH]; cbn [app try_alternatives].
  - destruct (String.eqb_spec alt model_name) as [Heq|_]; [contradiction|]. cbn [negb].
    unfold call_GenerativeModel. rewrite Hm. reflexivity.
  - assert (Hrest : forall b, In b pre -> b <> model_name ->
                              exists e, GenerativeModel service b = raise e)
      by (intros b Hb; apply Hpre; now right).
    unfold other_models in *. cbn [filter].
    destruct (String.eqb_spec a model_name) as [Heq|Hne]; cbn [negb].
    + now apply IH.
    + destruct (Hpre a (or_introl eq_refl) Hne) as [e He].
      unfold call_GenerativeModel. rewrite He. cbn. rewrite (IH Hrest). reflexivity.
Qed.

(** X7.  When the configured model fails to initialise, the alternatives are
    tried in their order, those equal to the configured name being skipped,
    and the first one that initialises is used: no later alternative is
    constructed, the one generation request goes to that model, and the
    outcome is decided by its response. *)
Theorem fallback_first_working (str_other : value -> string) (config : Config)
    (service : genai) (self : Vectorizer) (query : string)
    (context_texts : list value) (contract_ids : option (list value))
    (model_error : exception) (pre : list string) (alt : string) (post : list string)
    (m : handle) :
  nonempty context_texts = true ->
  GenerativeModel service (GEMINI_GENERATION_MODEL config) = raise model_error ->
  alternative_models = (pre ++ alt :: post)%list ->
  (forall a, In a pre -> a <> GEMINI_GENERATION_MODEL config ->
             exists e, GenerativeModel service a = raise e) ->
  alt <> GEMINI_GENERATION_MODEL config ->
  GenerativeModel service alt = ok m ->
  generate_answer str_other config service self query context_texts contract_ids
  = ((NewModel (GEMINI_GENERATION_MODEL config)
      :: map NewModel (other_models (GEMINI_GENERATION_MODEL config) pre)
      ++ [NewModel alt;
          GenerateContent m (prompt_of str_other query context_texts contract_ids)])%list,
     response <- generate_content service m
                   (prompt_of str_other query context_texts contract_ids) ;;
     answer_of_response str_other response).
Proof.
  intros Hne Hprimary Hsplit Hpre Halt Hm.
  unfold generate_answer, initialize_model, call_GenerativeModel, call_generate_content,
    prompt_of, excerpt_separator.
  rewrite Hne, Hprimary, Hsplit, (try_alternatives_first_success _ _ _ _ _ _ Hpre Halt Hm).
  unfold ok, raise, lift, pure. cbn [negb try_except bind app].
  unfold ok. cbv iota. rewrite app_nil_r.
  destruct (generate_content service m _); cbn [rbind]; now rewrite <- app_assoc.
Qed.

Lemma fallback_first_working_run :
  outcome (generate_answer angle_str sample_config
             (only_model "gemini-pro"
                (VObj "google.generativeai.types.GenerateContentResponse" [("text", VStr "Net 30.")] NotIterable))
             sample_self "When is payment due?" [VStr "Clause A"] None)
  = ok "Net 30.".
Proof.
  rewrite (fallback_first_working angle_str sample_config
             (only_model "gemini-pro"
                (VObj "google.generativeai.types.GenerateContentResponse" [("text", VStr "Net 30.")] NotIterable))
             sample_self "When is payment due?" [VStr "Clause A"] None
             (Raise "NotFound" "404 gemini-1.5-flash is not found")
             ["gemini-1.5-pro"; "gemini-1.5-flash"] "gemini-pro" [] "gemini-pro"
             eq_refl eq_refl eq_refl).
  - reflexivity.
  - intros a [<-|[<-|[]]] Hne.
    + eexists; reflexivity.
    + now elim Hne.
  - discriminate.
  - reflexivity.
Defined.

(** X8.  Whatever the client does, [generate_answer] constructs the
    configured model once, first, and after it only alternatives that differ
    from it, at most three; it sends at most one generation request, as its
    last call. *)
Theorem model_attempts_bounded (str_other : value -> string) (config : Config)
    (service : genai) (self : Vectorizer) (query : string)
    (context_texts : list value) (contract_ids : option (list value)) :
  nonempty context_texts = true ->
  exists tried,
    (forall a, In a tried ->
               In a alternative_models /\ a <> GEMINI_GENERATION_MODEL config)
    /\ (List.length tried <= 3)%nat
    /\ (trace (generate_answer str_other config service self query context_texts
                 contract_ids)
        = NewModel (GEMINI_GENERATION_MODEL config) :: map NewModel tried
        \/ exists m,
             trace (generate_answer str_other config service self query context_texts
                      contract_ids)
             = (NewModel (GEMINI_GENERATION_MODEL config) :: map NewModel tried
                ++ [GenerateContent m
                      (prompt_of str_other query context_texts contract_ids)])%list).
Proof.
  intros Hne.
  destruct (initialize_model_trace service (GEMINI_GENERATION_MODEL config))
    as [tried [Htrace [Hin Hlen]]].
  exists tried. split; [exact Hin|]. split; [exact Hlen|].
  unfold generate_answer, call_generate_content, prompt_of, excerpt_separator, trace in *.
  rewrite Hne. cbn [negb].
  destruct (initialize_model service (GEMINI_GENERATION_MODEL config)) as [t [e|m]];
    cbn in Htrace |- *; subst t.
  - now left.
  - right. exists m.
    destruct (generate_content service m _); cbn; now rewrite ?app_nil_r.
Qed.

Lemma model_attempts_bounded_run :
  nonempty [VStr "Clause A"] = true
  /\ exists tried,
       (forall a, In a tried -> In a alternative_models /\ a <> "gemini-1.5-flash")
       /\ (List.length tried <= 3)%nat
       /\ (trace (generate_answer angle_str sample_config
                    (unavailable (Raise "NotFound" "404 model not found")) sample_self
                    "When is payment due?" [VStr "Clause A"] None)
           = NewModel "gemini-1.5-flash" :: map NewModel tried
           \/ exists m,
                trace (generate_answer angle_str sample_config
                         (unavailable (Raise "NotFound" "404 model not found")) sample_self
                         "When is payment due?" [VStr "Clause A"] None)
                = (NewModel "gemini-1.5-flash" :: map NewModel tried
                   ++ [GenerateContent m
                         (prompt_of angle_str "When is payment due?" [VStr "Clause A"]
                            None)])%list).
Proof.
  split.
  - reflexivity.
  - apply (model_attempts_bounded angle_str sample_config
             (unavailable (Raise "NotFound" "404 model not found")) sample_self
             "When is payment due?" [VStr "Clause A"] None).
    reflexivity.
Defined.

(** X9.  A failure of the generation request is raised as it is, and is not
    retried: after the model is initialised there is exactly one generation
    request, and no other model is constructed after it. *)
Theorem generation_failure_raised (str_other : value -> string) (config : Config)
    (service : genai) (self : Vectorizer) (query : string)
    (context_texts : list value) (contract_ids : option (list value))
    (m : handle) (e : exception) :
  nonempty context_texts = true ->
  outcome (initialize_model service (GEMINI_GENERATION_MODEL config)) = ok m ->
  generate_content service m (prompt_of str_other query context_texts contract_ids)
  = raise e ->
  outcome (generate_answer str_other config service self query context_texts contract_ids)
  = raise e
  /\ trace (generate_answer str_other config service self query context_texts contract_ids)
     = (trace (initialize_model service (GEMINI_GENERATION_MODEL config))
        ++ [GenerateContent m (prompt_of str_other query context_texts contract_ids)])%list.
Proof.
  intros Hne Hm Hgen.
  unfold generate_answer, call_generate_content, prompt_of, excerpt_separator,
    outcome, trace in *.
  rewrite Hne. cbn [negb].
  destruct (initialize_model service (GEMINI_GENERATION_MODEL config)) as [t [e'|m']];
    cbn in Hm; [discriminate|]. injection Hm as ->.
  cbn [bind]. rewrite Hgen. split; reflexivity.
Qed.

Lemma generation_failure_raised_run :
  nonempty [VStr "Clause A"] = true
  /\ outcome (generate_answer angle_str sample_config
                (refusing (Raise "ResourceExhausted" "429 quota exceeded")) sample_self
                "When is payment due?" [VStr "Clause A"] None)
     = raise (Raise "ResourceExhausted" "429 quota exceeded").
Proof.
  split.
  - reflexivity.
  - apply (generation_failure_raised angle_str sample_config
             (refusing (Raise "ResourceExhausted" "429 quota exceeded")) sample_self
             "When is payment due?" [VStr "Clause A"] None "gemini-1.5-flash"
             (Raise "ResourceExhausted" "429 quota exceeded") eq_refl eq_refl eq_refl).
Defined.

(** ** The answer that is returned *)

Lemma lstrip_chars_head (cs : list ascii) :
  lstrip_chars cs = [] \/ exists c rest, lstrip_chars cs = c :: rest /\ is_space c = false.
Proof.
  induction cs as [|c cs IH]; [now left|]. cbn [lstrip_chars].
  destruct (is_space c) eqn:Hc; [exact IH|]. right. now exists c, cs.
Qed.

Lemma lstrip_chars_suffix (cs : list ascii) :
  exists dropped, cs = (dropped ++ lstrip_chars cs)%list.
Proof.
  induction cs as [|c cs [dropped IH]]; [now exists []|]. cbn [lstrip_chars].
  destruct (is_space c).
  - exists (c :: dropped). cbn. now rewrite <- IH.
  - now exists [].
Qed.

(** Stripping the characters twice is stripping them once. *)
Lemma strip_chars_idempotent (cs : list ascii) :
  rev (lstrip_chars (rev (lstrip_chars
    (rev (lstrip_chars (rev (lstrip_chars cs)))))))
  = rev (lstrip_chars (rev (lstrip_chars cs))).
Proof.
  set (a := lstrip_chars cs).
  destruct (lstrip_chars_head (rev a)) as [Hb | [c [rest [Hb Hc]]]].
  - rewrite Hb. reflexivity.
  - rewrite Hb. set (b := c :: rest) in *.
    destruct (lstrip_chars_suffix (rev a)) as [dropped Hsuffix]. rewrite Hb in Hsuffix.
    assert (Ha : a = (rev b ++ rev dropped)%list).
    { rewrite <- rev_app_distr, <- Hsuffix. now rewrite rev_involutive. }
    assert (Hfront : lstrip_chars (rev b) = rev b).
    { destruct (rev b) as [|x front] eqn:Hrev.
      - reflexivity.
      - rewrite ?Hrev in Ha.
        destruct (lstrip_chars_head cs) as [Hnil | [c' [rest' [Hcs Hc']]]].
        + fold a in Hnil. rewrite Hnil in Ha. discriminate.
        + fold a in Hcs. rewrite Hcs in Ha. cbn [app] in Ha.
          assert (Hx : c' = x) by congruence. subst c'.
          cbn [lstrip_chars]. now rewrite Hc'. }
    rewrite Hfront, rev_involutive. unfold b at 1. cbn [lstrip_chars]. now rewrite Hc.
Qed.

Lemma strip_idempotent (s : string) : strip (strip s) = strip s.
Proof.
  unfold strip. rewrite list_ascii_of_string_of_list_ascii.
  now rewrite strip_chars_idempotent.
Qed.

Lemma checked_answer_ok str_other response answer s :
  checked_answer str_other response answer = ok s ->
  exists text, answer = VStr text /\ s = strip text /\ s <> "".
Proof.
  unfold checked_answer, ok, raise.
  destruct (truthy answer) eqn:Htruthy; cbn [negb andb rbind].
  - destruct answer; cbn [call_strip rbind]; unfold ok, raise; cbn [rbind];
      try (intros H; discriminate H).
    destruct (String.eqb_spec (strip s0) "") as [Hempty|Hfull];
      [intros H; discriminate H|].
    intros H. injection H as <-. now exists s0.
  - destruct (hasattr response "prompt_feedback"); cbn [rbind].
    + destruct (attr response "prompt_feedback") as [e|feedback]; cbn [rbind];
        [intros H; discriminate H|].
      destruct (getattr feedback "block_reason") as [reason|];
        [|intros H; discriminate H].
      destruct (truthy reason); intros H; discriminate H.
    + intros H; discriminate H.
Qed.

(** X10.  Whatever [generate_answer] returns is a non-empty string without
    leading or trailing white space: the fixed message for an empty context,
    or a stripped answer; it never returns an empty or blank answer. *)
Theorem returned_answer_trimmed (str_other : value -> string) (config : Config)
    (service : genai) (self : Vectorizer) (query : string)
    (context_texts : list value) (contract_ids : option (list value)) (s : string) :
  outcome (generate_answer str_other config service self query context_texts contract_ids)
  = ok s ->
  s <> "" /\ strip s = s.
Proof.
  unfold generate_answer, outcome.
  destruct (nonempty context_texts); cbn [negb].
  - destruct (initialize_model service (GEMINI_GENERATION_MODEL config)) as [t [e|m]];
      cbn [bind snd]; [discriminate|].
    unfold call_generate_content, lift.
    destruct (generate_content service m _) as [e|response]; cbn [bind snd];
      [discriminate|].
    unfold answer_of_response.
    destruct (located_answer str_other response) as [e|answer]; cbn [rbind];
      [discriminate|].
    intros Hok. destruct (checked_answer_ok _ _ _ _ Hok) as [text [_ [-> Hne]]].
    split; [exact Hne | apply strip_idempotent].
  - cbn. intros H. injection H as <-. split; [discriminate | reflexivity].
Qed.

Lemma returned_answer_trimmed_run :
  "Net 30 days." <> "" /\ strip "Net 30 days." = "Net 30 days.".
Proof.
  apply (returned_answer_trimmed angle_str sample_config
           (answering (VObj "google.generativeai.types.GenerateContentResponse"
                         [("text", VStr ("  Net 30 days. " ++ nl))] NotIterable))
           sample_self "When is payment due?" [VStr "Clause A"] None "Net 30 days.").
  reflexivity.
Defined.

(** X11.  A non-empty [text] on the response decides the outcome alone: the
    candidates and the prompt feedback are not consulted.  The answer is the
    stripped text, and a text of white space only raises
    [Generated answer is empty] even when a candidate holds an answer. *)
Theorem direct_text_decides (str_other : value -> string) (response : value) (s : string) :
  getattr response "text" = Some (VStr s) ->
  s <> "" ->
  answer_of_response str_other response
  = if String.eqb (strip s) "" then raise (ValueError "Generated answer is empty")
    else ok (strip s).
Proof.
  intros Htext Hs. unfold answer_of_response, located_answer, attr.
  rewrite Htext. cbn [truthy].
  destruct (String.eqb_spec s "") as [->|_]; [contradiction|]. cbn [negb rbind ok].
  now apply checked_answer_text.
Qed.

Lemma direct_text_decides_run :
  answer_of_response angle_str
    (VObj "google.generativeai.types.GenerateContentResponse"
       [("text", VStr "   ");
        ("candidates", VList [VObj "google.generativeai.protos.Candidate" [("text", VStr "Net 30.")] NotIterable])]
       NotIterable)
  = raise (ValueError "Generated answer is empty").
Proof.
  apply (direct_text_decides angle_str
           (VObj "google.generativeai.types.GenerateContentResponse"
              [("text", VStr "   ");
               ("candidates", VList [VObj "google.generativeai.protos.Candidate" [("text", VStr "Net 30.")] NotIterable])]
              NotIterable)
           "   " eq_refl).
  discriminate.
Defined.

(** X12.  When no answer is located, a prompt feedback with a true block
    reason turns the failure into [Content was blocked: <reason>]; a
    feedback without a block reason, or with a false one such as 0, leaves
    [Could not extract answer from Gemini response].  When an answer is
    located, the feedback is never read: the check gives the same outcome on
    any response. *)
Theorem block_reason_reported (str_other : value -> string) (response answer : value) :
  (truthy answer = false ->
   forall feedback reason,
     getattr response "prompt_feedback" = Some feedback ->
     getattr feedback "block_reason" = Some reason ->
     checked_answer str_other response answer
     = if truthy reason
       then raise (ValueError ("Content was blocked: " ++ str str_other reason))
       else raise (ValueError "Could not extract answer from Gemini response"))
  /\ (truthy answer = false ->
      getattr response "prompt_feedback" = None
      \/ (exists feedback, getattr response "prompt_feedback" = Some feedback
                           /\ getattr feedback "block_reason" = None) ->
      checked_answer str_other response answer
      = raise (ValueError "Could not extract answer from Gemini response"))
  /\ (truthy answer = true ->
      forall response',
        checked_answer str_other response answer
        = checked_answer str_other response' answer).
Proof.
  unfold checked_answer, hasattr, attr. split; [|split].
  - intros Hfalse feedback reason Hfb Hreason. rewrite Hfalse, Hfb.
    unfold ok. cbn [negb andb rbind]. rewrite Hreason.
    destruct (truthy reason); reflexivity.
  - intros Hfalse [Hnone | [feedback [Hfb Hreason]]]; rewrite Hfalse.
    + rewrite Hnone. reflexivity.
    + rewrite Hfb. unfold ok. cbn [negb andb rbind]. rewrite Hreason. reflexivity.
  - intros Htrue response'. rewrite Htrue. reflexivity.
Qed.

Lemma block_reason_reported_run :
  checked_answer angle_str
    (VObj "google.generativeai.types.GenerateContentResponse"
       [("prompt_feedback", VObj "google.generativeai.protos.GenerateContentResponse.PromptFeedback" [("block_reason", VInt 0)] NotIterable)]
       NotIterable)
    VNone
  = raise (ValueError "Could not extract answer from Gemini response").
Proof.
  apply (proj1 (block_reason_reported angle_str
                  (VObj "google.generativeai.types.GenerateContentResponse"
                     [("prompt_feedback",
                       VObj "google.generativeai.protos.GenerateContentResponse.PromptFeedback" [("block_reason", VInt 0)] NotIterable)]
                     NotIterable)
                  VNone)
           eq_refl
           (VObj "google.generativeai.protos.GenerateContentResponse.PromptFeedback" [("block_reason", VInt 0)] NotIterable) (VInt 0)
           eq_refl eq_refl).
Defined.

(** ** The parts of the first candidate *)

Lemma part_texts_has_text (parts : list value) (ss : list string) :
  Forall2 has_text parts ss ->
  part_texts parts = map VStr (filter (fun s => negb (String.eqb s "")) ss).
Proof.
  unfold part_texts, has_text. induction 1 as [|part s parts ss Hpart _ IH]; [reflexivity|].
  cbn [flat_map filter]. rewrite Hpart, IH. cbn [truthy].
  now destruct (String.eqb s "").
Qed.

Lemma join_texts_strings (ss : list string) :
  forall i, join_texts i (map VStr ss) = ok (concat_texts ss).
Proof.
  induction ss as [|s ss IH]; intros i; [reflexivity|].
  cbn [map join_texts]. now rewrite IH.
Qed.

Lemma concat_texts_nonempty (ss : list string) :
  concat_texts (filter (fun s => negb (String.eqb s "")) ss) = concat_texts ss.
Proof.
  induction ss as [|s ss IH]; [reflexivity|]. cbn [filter].
  destruct (String.eqb_spec s "") as [->|Hs]; cbn [negb]; [exact IH|].
  unfold concat_texts in *. cbn [fold_right]. now rewrite IH.
Qed.

Lemma concat_texts_empty (ss : list string) :
  filter (fun s => negb (String.eqb s "")) ss = [] <-> concat_texts ss = "".
Proof.
  induction ss as [|s ss IH]; [now split|]. cbn [filter].
  unfold concat_texts in *. cbn [fold_right].
  destruct (String.eqb_spec s "") as [->|Hs]; cbn [negb].
  - exact IH.
  - split; [discriminate|]. destruct s; [contradiction | discriminate].
Qed.

(** X13.  Without a direct text, the answer is read from the first
    candidate alone: the texts of the parts of its content, empty ones left
    out, are concatenated in order; when every part is empty nothing is
    located, and the later candidates are not read. *)
Theorem candidate_parts_concatenated (str_other : value -> string)
    (response candidate content parts_value : value) (others parts : list value)
    (ss : list string) :
  no_direct_text response = true ->
  getattr response "candidates" = Some (VList (candidate :: others)) ->
  getattr candidate "content" = Some content ->
  getattr content "parts" = Some parts_value ->
  iter_items parts_value = Some parts ->
  Forall2 has_text parts ss ->
  located_answer str_other response
  = ok (if String.eqb (concat_texts ss) "" then VNone else VStr (concat_texts ss)).
Proof.
  intros Hdirect Hcands Hcontent Hparts Hiter Htexts.
  unfold located_answer, no_direct_text in *.
  assert (Hno : match getattr response "text" with
                | Some t => truthy t
                | None => false
                end = false).
  { destruct (getattr response "text") as [t|]; [|reflexivity].
    now destruct (truthy t). }
  rewrite Hno. unfold hasattr, attr. rewrite Hcands. cbn [rbind ok len first_item].
  cbn [Nat.ltb Nat.leb List.length]. unfold candidate_answer, hasattr, attr, iterate.
  rewrite Hcontent. cbn [rbind ok]. rewrite Hparts. cbn [rbind ok]. rewrite Hiter.
  cbn [rbind ok]. rewrite (part_texts_has_text _ _ Htexts).
  destruct (filter (fun s => negb (String.eqb s "")) ss) as [|s kept] eqn:Hkept.
  - apply concat_texts_empty in Hkept. rewrite Hkept. reflexivity.
  - cbn [map nonempty]. change (VStr s :: map VStr kept) with (map VStr (s :: kept)).
    rewrite join_texts_strings. cbn [rbind ok]. rewrite <- Hkept, concat_texts_nonempty.
    destruct (String.eqb_spec (concat_texts ss) "") as [Hempty|_]; [|reflexivity].
    apply concat_texts_empty in Hempty. congruence.
Qed.

Lemma candidate_parts_concatenated_run :
  located_answer angle_str
    (VObj "google.generativeai.types.GenerateContentResponse"
       [("candidates",
         VList [VObj "google.generativeai.protos.Candidate"
                  [("content",
                    VObj "google.generativeai.protos.Content"
                      [("parts",
                        VList [VObj "google.generativeai.protos.Part" [("text", VStr "Net ")] NotIterable;
                               VObj "google.generativeai.protos.Part" [("text", VStr "")] NotIterable;
                               VObj "google.generativeai.protos.Part" [("text", VStr "30.")] NotIterable])]
                      NotIterable)]
                  NotIterable;
                VObj "google.generativeai.protos.Candidate" [("text", VStr "Net 60.")] NotIterable])]
       NotIterable)
  = ok (VStr "Net 30.").
Proof.
  apply (candidate_parts_concatenated angle_str
           (VObj "google.generativeai.types.GenerateContentResponse"
              [("candidates",
                VList [VObj "google.generativeai.protos.Candidate"
                         [("content",
                           VObj "google.generativeai.protos.Content"
                             [("parts",
                               VList [VObj "google.generativeai.protos.Part" [("text", VStr "Net ")] NotIterable;
                                      VObj "google.generativeai.protos.Part" [("text", VStr "")] NotIterable;
                                      VObj "google.generativeai.protos.Part" [("text", VStr "30.")] NotIterable])]
                             NotIterable)]
                         NotIterable;
                       VObj "google.generativeai.protos.Candidate" [("text", VStr "Net 60.")] NotIterable])]
              NotIterable)
           _ _ _ _ _ ["Net "; ""; "30."] eq_refl eq_refl eq_refl eq_refl eq_refl).
  repeat constructor.
Defined.

(** ** The identifiers of the excerpts *)

Lemma context_parts_from_same str_other ids1 ids2 context_texts :
  forall start,
    (forall i text, (start <= i < start + List.length context_texts)%nat ->
                    context_part str_other ids1 i text = context_part str_other ids2 i text) ->
    context_parts_from str_other ids1 start context_texts
    = context_parts_from str_other ids2 start context_texts.
Proof.
  induction context_texts as [|t rest IH]; intros start Hsame; [reflexivity|].
  cbn [context_parts_from]. f_equal.
  - apply Hsame. cbn [List.length]. lia.
  - apply IH. intros i text Hi. apply Hsame. cbn [List.length]. lia.
Qed.

Lemma context_parts_from_length str_other ids context_texts :
  forall start,
    List.length (context_parts_from str_other ids start context_texts)
    = List.length context_texts.
Proof.
  induction context_texts as [|t rest IH]; intros start; [reflexivity|].
  cbn [context_parts_from List.length]. now rewrite IH.
Qed.

(** X14.  There is one excerpt per context text, whatever the identifiers.
    An empty list of identifiers labels the excerpts as an absent list does,
    and identifiers beyond the number of texts are ignored. *)
Theorem identifiers_edge_cases (str_other : value -> string)
    (context_texts : list value) :
  (forall contract_ids,
     List.length (context_parts str_other context_texts contract_ids)
     = List.length context_texts)
  /\ context_parts str_other context_texts (Some [])
     = context_parts str_other context_texts None
  /\ (forall ids surplus,
        (List.length context_texts <= List.length ids)%nat ->
        context_parts str_other context_texts (Some (ids ++ surplus)%list)
        = context_parts str_other context_texts (Some ids)).
Proof.
  unfold context_parts. split; [|split].
  - intros contract_ids. apply context_parts_from_length.
  - apply context_parts_from_same. reflexivity.
  - intros ids surplus Hlen. apply context_parts_from_same.
    intros i text Hi. unfold context_part.
    assert (Hlt : (i < List.length ids)%nat) by lia.
    rewrite length_app, (app_nth1 _ _ _ Hlt).
    destruct ids as [|id ids']; [cbn in Hlt; lia|]. cbn [app nonempty andb].
    replace (i <? List.length (id :: ids') + List.length surplus)%nat with true
      by (symmetry; apply Nat.ltb_lt; lia).
    replace (i <? List.length (id :: ids'))%nat with true
      by (symmetry; apply Nat.ltb_lt; lia).
    reflexivity.
Qed.

Lemma identifiers_edge_cases_run :
  context_parts angle_str [VStr "Clause A"] (Some [VStr "C-1"; VStr "C-2"; VStr "C-3"])
  = ["Contract ID: C-1" ++ nl ++ "Clause A"].
Proof.
  transitivity (context_parts angle_str [VStr "Clause A"] (Some [VStr "C-1"])).
  - apply (proj2 (proj2 (identifiers_edge_cases angle_str [VStr "Clause A"]))
             [VStr "C-1"] [VStr "C-2"; VStr "C-3"]).
    cbn. lia.
  - reflexivity.
Defined.

(* ===================================================================== *)
(** * Further properties of the upload tester *)
(* ===================================================================== *)

(** What the two functions print for a 200 response whose body is a mapping:
    the heading, then the pairs of the metadata, or nothing for a missing
    metadata key, or the [AttributeError] of [items] on any other value. *)
Lemma invoice_success_eq str_other (body : dict) :
  invoice_success str_other (ok (VDict body))
  = match lookup "metadata" body with
    | None => (success_header str_other (get body "message"), ok tt)
    | Some (VDict metadata) =>
        ((success_header str_other (get body "message")
          ++ map (fun kv => Print (invoice_line str_other (fst kv) (snd kv))) metadata)%list,
         ok tt)
    | Some v =>
        (success_header str_other (get body "message"),
         raise (AttributeError ("'" ++ type_name v ++ "' object has no attribute 'items'")))
    end.
Proof.
  unfold invoice_success, call_get, call_items, get_default, print, success_header, get, lift,
    emit, ok, raise.
  cbn [bind app]. destruct (lookup "message" body) as [message|];
    (destruct (lookup "metadata" body) as [[ | | | | | | | metadata | | ]|];
     cbn [bind app]; try reflexivity; rewrite print_items_eq; reflexivity).
Qed.

Lemma contract_success_eq str_other (body : dict) :
  contract_success str_other (ok (VDict body))
  = match lookup "metadata" body with
    | None => (success_header str_other (get body "message"), ok tt)
    | Some (VDict metadata) =>
        ((success_header str_other (get body "message")
          ++ map (fun kv => Print (contract_line str_other (fst kv) (snd kv))) metadata)%list,
         ok tt)
    | Some v =>
        (success_header str_other (get body "message"),
         raise (AttributeError ("'" ++ type_name v ++ "' object has no attribute 'items'")))
    end.
Proof.
  unfold contract_success, call_get, call_items, get_default, print, success_header, get, lift,
    emit, ok, raise.
  cbn [bind app]. destruct (lookup "message" body) as [message|];
    (destruct (lookup "metadata" body) as [[ | | | | | | | metadata | | ]|];
     cbn [bind app]; try reflexivity; rewrite print_items_eq; reflexivity).
Qed.

Lemma no_post_in_lines (line : string * value -> string) (items : dict) :
  filter is_post (map (fun kv => Print (line kv)) items) = [].
Proof. induction items as [|kv rest IH]; [reflexivity | exact IH]. Qed.

Lemma except_clauses_no_post (e : exception) : filter is_post (except_clauses e) = [].
Proof.
  unfold except_clauses. destruct (is_connection_error e); [reflexivity|].
  destruct (is_timeout e); reflexivity.
Qed.

Lemma invoice_success_no_post str_other (json : result value) :
  filter is_post (try_block (invoice_success str_other json)) = [].
Proof.
  destruct json as [e|result].
  - apply except_clauses_no_post.
  - destruct result as [ | | | | | | | body | | ]; try reflexivity.
    rewrite invoice_success_eq.
    destruct (lookup "metadata" body) as [[ | | | | | | | metadata | | ]|]; try reflexivity.
    unfold try_block, ok.
    rewrite filter_app,
      (no_post_in_lines (fun kv => invoice_line str_other (fst kv) (snd kv))).
    reflexivity.
Qed.

Lemma contract_success_no_post str_other (json : result value) :
  filter is_post (try_block (contract_success str_other json)) = [].
Proof.
  destruct json as [e|result].
  - apply except_clauses_no_post.
  - destruct result as [ | | | | | | | body | | ]; try reflexivity.
    rewrite contract_success_eq.
    destruct (lookup "metadata" body) as [[ | | | | | | | metadata | | ]|]; try reflexivity.
    unfold try_block, ok.
    rewrite filter_app,
      (no_post_in_lines (fun kv => contract_line str_other (fst kv) (snd kv))).
    reflexivity.
Qed.

Lemma invoice_posts str_other file_exists opened pdf_path post :
  filter is_post (trace (test_upload_invoice str_other file_exists opened pdf_path post))
  = if file_exists
    then match opened with
         | inl _ => []
         | inr _ => [Post url "invoice" pdf_path]
         end
    else [].
Proof.
  unfold test_upload_invoice, invoice_request, trace, lift, print, emit, ok.
  destruct file_exists; [|reflexivity]. destruct opened as [e|[]]; [reflexivity|].
  cbn [negb bind app fst filter is_post]. f_equal.
  destruct post as [ | | e | status_code text json]; try reflexivity.
  - apply except_clauses_no_post.
  - destruct (status_code =? 200); [apply invoice_success_no_post | reflexivity].
Qed.

Lemma contract_posts str_other file_exists opened pdf_path post :
  filter is_post (trace (test_upload_contract str_other file_exists opened pdf_path post))
  = if file_exists
    then match opened with
         | inl _ => []
         | inr _ => [Post url "contract" pdf_path]
         end
    else [].
Proof.
  unfold test_upload_contract, contract_request, trace, lift, print, emit, ok.
  destruct file_exists; [|reflexivity]. destruct opened as [e|[]]; [reflexivity|].
  cbn [negb bind app fst filter is_post]. f_equal.
  destruct post as [ | | e | status_code text json]; try reflexivity.
  - apply except_clauses_no_post.
  - destruct (status_code =? 200); [apply contract_success_no_post | reflexivity].
Qed.

(** X15.  Each upload function calls [requests.post] exactly once when the
    file exists and opens, whatever the call then does, and not at all
    otherwise: for a missing file it prints [Error: File not found] and
    returns; for a path that exists and does not open, the exception of
    [open] leaves the function with nothing printed.  The request goes to
    the fixed URL with the document type of the function and the path. *)
Theorem upload_request_once (str_other : value -> string) (file_exists : bool)
    (opened : result unit) (pdf_path : string) (post : post_outcome) :
  filter is_post (trace (test_upload_invoice str_other file_exists opened pdf_path post))
  = (if file_exists
     then match opened with
          | inl _ => []
          | inr _ => [Post "http://localhost:8001/upload_document" "invoice" pdf_path]
          end
     else [])
  /\ filter is_post (trace (test_upload_contract str_other file_exists opened pdf_path post))
     = (if file_exists
        then match opened with
             | inl _ => []
             | inr _ => [Post "http://localhost:8001/upload_document" "contract" pdf_path]
             end
        else [])
  /\ (file_exists = false ->
      test_upload_invoice str_other file_exists opened pdf_path post
      = ([Print ("Error: File not found: " ++ pdf_path)], ok tt)
      /\ test_upload_contract str_other file_exists opened pdf_path post
         = ([Print ("Error: File not found: " ++ pdf_path)], ok tt))
  /\ (forall e, file_exists = true -> opened = raise e ->
      test_upload_invoice str_other file_exists opened pdf_path post = ([], raise e)
      /\ test_upload_contract str_other file_exists opened pdf_path post = ([], raise e)).
Proof.
  split; [apply invoice_posts | split; [apply contract_posts | split]].
  - intros ->. split; reflexivity.
  - intros e -> ->. split; reflexivity.
Qed.

(** X16.  A 200 response whose body is a mapping without a [metadata] key is
    reported as a success with no metadata lines: the default is the empty
    mapping; a missing [message] is printed as [None]. *)
Theorem missing_metadata_reported_empty (str_other : value -> string)
    (pdf_path text : string) (body : dict) :
  lookup "metadata" body = None ->
  test_upload_invoice str_other true (ok tt) pdf_path
    (Response 200 text (ok (VDict body)))
  = (Print ("Uploading invoice: " ++ pdf_path ++ "...")
     :: Post url "invoice" pdf_path
     :: success_header str_other (get body "message"),
     ok tt)
  /\ test_upload_contract str_other true (ok tt) pdf_path
       (Response 200 text (ok (VDict body)))
     = (Print ("Uploading contract: " ++ pdf_path ++ "...")
        :: Post url "contract" pdf_path
        :: success_header str_other (get body "message"),
        ok tt)
  /\ (lookup "message" body = None ->
      success_header str_other (get body "message")
      = [Print (nl ++ check_mark ++ " Success!"); Print "Message: None";
         Print (nl ++ "Extracted Metadata:")]).
Proof.
  intros Hmeta.
  unfold test_upload_invoice, test_upload_contract, invoice_request, contract_request.
  cbn [negb Z.eqb Pos.eqb].
  rewrite invoice_success_eq, contract_success_eq, Hmeta. repeat split.
  unfold get. intros ->. reflexivity.
Qed.

Lemma missing_metadata_reported_empty_run :
  test_upload_invoice angle_str true (ok tt) "i.pdf" (Response 200 "{}" (ok (VDict [])))
  = ([Print "Uploading invoice: i.pdf..."; Post url "invoice" "i.pdf";
      Print (nl ++ check_mark ++ " Success!"); Print "Message: None";
      Print (nl ++ "Extracted Metadata:")],
     ok tt).
Proof.
  apply (missing_metadata_reported_empty angle_str "i.pdf" "{}" []). reflexivity.
Defined.

(** X17.  A 200 response with an unusable JSON body does not stop the
    script.  A body that is not a mapping is reported after the success
    line, as the error of its missing [get]; a [metadata] that is not a
    mapping is reported after the whole heading, as the error of its missing
    [items].  Both functions behave alike. *)
Theorem unusable_body_reported (str_other : value -> string) (pdf_path text : string) :
  (forall result,
     isinstance_dict result = false ->
     test_upload_invoice str_other true (ok tt) pdf_path (Response 200 text (ok result))
     = ([Print ("Uploading invoice: " ++ pdf_path ++ "...");
         Post url "invoice" pdf_path;
         Print (nl ++ check_mark ++ " Success!");
         Print ("Error: '" ++ type_name result ++ "' object has no attribute 'get'")],
        ok tt)
     /\ test_upload_contract str_other true (ok tt) pdf_path (Response 200 text (ok result))
        = ([Print ("Uploading contract: " ++ pdf_path ++ "...");
            Post url "contract" pdf_path;
            Print (nl ++ check_mark ++ " Success!");
            Print ("Error: '" ++ type_name result ++ "' object has no attribute 'get'")],
           ok tt))
  /\ (forall body metadata,
        lookup "metadata" body = Some metadata ->
        isinstance_dict metadata = false ->
        test_upload_invoice str_other true (ok tt) pdf_path
          (Response 200 text (ok (VDict body)))
        = ((Print ("Uploading invoice: " ++ pdf_path ++ "...")
            :: Post url "invoice" pdf_path
            :: success_header str_other (get body "message")
            ++ [Print ("Error: '" ++ type_name metadata
                       ++ "' object has no attribute 'items'")])%list,
           ok tt)
        /\ test_upload_contract str_other true (ok tt) pdf_path
             (Response 200 text (ok (VDict body)))
           = ((Print ("Uploading contract: " ++ pdf_path ++ "...")
               :: Post url "contract" pdf_path
               :: success_header str_other (get body "message")
               ++ [Print ("Error: '" ++ type_name metadata
                          ++ "' object has no attribute 'items'")])%list,
              ok tt)).
Proof.
  split.
  - intros result Hdict. destruct result; try discriminate; split; reflexivity.
  - intros body metadata Hmeta Hdict.
    unfold test_upload_invoice, test_upload_contract, invoice_request, contract_request.
    cbn [negb Z.eqb Pos.eqb].
    rewrite invoice_success_eq, contract_success_eq, Hmeta.
    destruct metadata; try discriminate; split; reflexivity.
Qed.

Lemma unusable_body_reported_run :
  test_upload_contract angle_str true (ok tt) "c.pdf"
    (Response 200 "{}" (ok (VDict [("message", VStr "done"); ("metadata", VNone)])))
  = ([Print "Uploading contract: c.pdf..."; Post url "contract" "c.pdf";
      Print (nl ++ check_mark ++ " Success!"); Print "Message: done";
      Print (nl ++ "Extracted Metadata:");
      Print "Error: 'NoneType' object has no attribute 'items'"],
     ok tt).
Proof.
  apply (proj2 (unusable_body_reported angle_str "c.pdf" "{}")
           [("message", VStr "done"); ("metadata", VNone)] VNone eq_refl eq_refl).
Defined.

Lemma prefix_split (n : nat) (s : string) :
  (n <= String.length s)%nat ->
  String.length (prefix n s) = n /\ exists rest, s = prefix n s ++ rest.
Proof.
  unfold prefix. revert s. induction n as [|n IH]; intros s Hlen.
  - split; [now destruct s | exists s; now destruct s].
  - destruct s as [|c s]; [cbn in Hlen; lia|]. cbn in Hlen.
    destruct (IH s) as [Hn [rest Hrest]]; [lia|]. cbn [substring]. split.
    + cbn. now rewrite Hn.
    + exists rest. cbn. now rewrite <- Hrest.
Qed.

(** X18.  The truncated line of the contract path shows exactly the first
    200 characters of the text and states its full length: the preview has
    length 200 and the text starts with it. *)
Theorem truncated_text_preview (str_other : value -> string) (v : value) :
  truthy v = true ->
  (200 < String.length (str str_other v))%nat ->
  exists preview rest,
    contract_line str_other "text" v
    = "  text: " ++ preview ++ "... (truncated, full length: "
      ++ str_of_nat (String.length (str str_other v)) ++ " chars)"
    /\ String.length preview = 200%nat
    /\ str str_other v = preview ++ rest.
Proof.
  intros Hv Hlen.
  destruct (prefix_split 200 (str str_other v)) as [Hpre [rest Hrest]]; [lia|].
  exists (prefix 200 (str str_other v)), rest. split; [|split; assumption].
  unfold contract_line. cbn [String.eqb Ascii.eqb Bool.eqb andb].
  apply Nat.ltb_lt in Hlen. now rewrite Hv, Hlen.
Qed.

Lemma truncated_text_preview_run :
  exists preview rest,
    contract_line angle_str "text" (VStr (repeat_string 250 "ab"))
    = "  text: " ++ preview ++ "... (truncated, full length: 500 chars)"
    /\ String.length preview = 200%nat
    /\ repeat_string 250 "ab" = preview ++ rest.
Proof.
  apply (truncated_text_preview angle_str (VStr (repeat_string 250 "ab"))).
  - reflexivity.
  - vm_compute. lia.
Defined.

Lemma lines_without_long_text str_other (metadata : dict) :
  (forall v, In ("text", v) metadata ->
             truthy v = false \/ (String.length (str str_other v) <= 200)%nat) ->
  map (fun kv => Print (contract_line str_other (fst kv) (snd kv))) metadata
  = map (fun kv => Print (invoice_line str_other (fst kv) (snd kv))) metadata.
Proof.
  intros Hshort. apply map_ext_in. intros [key v] Hin. cbn [fst snd]. f_equal.
  unfold contract_line, invoice_line.
  destruct (String.eqb_spec key "text") as [->|_]; [|reflexivity]. cbn [andb].
  destruct (Hshort v Hin) as [-> | Hlen]; [reflexivity|].
  apply Nat.ltb_ge in Hlen. rewrite Hlen. now rewrite andb_false_r.
Qed.

(** X19.  Apart from the word in the first line and the document type of the
    request, the contract path prints what the invoice path prints, on every
    outcome of the request, unless the metadata of a 200 response holds a
    [text] that is true and longer than 200 characters; the two functions
    also end alike. *)
Theorem contract_report_as_invoice (str_other : value -> string) (opened : result unit)
    (pdf_path : string) (post : post_outcome) :
  (forall text body metadata v,
     post = Response 200 text (ok (VDict body)) ->
     lookup "metadata" body = Some (VDict metadata) ->
     In ("text", v) metadata ->
     truthy v = false \/ (String.length (str str_other v) <= 200)%nat) ->
  skipn 2 (trace (test_upload_contract str_other true opened pdf_path post))
  = skipn 2 (trace (test_upload_invoice str_other true opened pdf_path post))
  /\ outcome (test_upload_contract str_other true opened pdf_path post)
     = outcome (test_upload_invoice str_other true opened pdf_path post).
Proof.
  intros Hshort.
  unfold test_upload_contract, test_upload_invoice, contract_request, invoice_request,
    trace, outcome, lift, print, emit, ok.
  destruct opened as [e|[]]; [split; reflexivity|].
  cbn [negb bind app fst snd skipn]. split; [|reflexivity].
  destruct post as [ | | e | status_code text json]; try reflexivity.
  destruct (Z.eqb_spec status_code 200) as [->|_]; [|reflexivity].
  destruct json as [e|[ | | | | | | | body | | ]]; try reflexivity.
  rewrite invoice_success_eq, contract_success_eq.
  destruct (lookup "metadata" body) as [[ | | | | | | | metadata | | ]|] eqn:Hmeta;
    try reflexivity.
  rewrite (lines_without_long_text str_other metadata); [reflexivity|].
  intros v Hin. exact (Hshort text body metadata v eq_refl Hmeta Hin).
Qed.

Lemma contract_report_as_invoice_run :
  skipn 2 (trace (test_upload_contract angle_str true (ok tt) "c.pdf"
                    (Response 200 ""
                       (ok (upload_body (VStr "done")
                              [("text", VStr "short"); ("summary", VNone)])))))
  = skipn 2 (trace (test_upload_invoice angle_str true (ok tt) "c.pdf"
                      (Response 200 ""
                         (ok (upload_body (VStr "done")
                                [("text", VStr "short"); ("summary", VNone)]))))).
Proof.
  apply (contract_report_as_invoice angle_str (ok tt) "c.pdf"
           (Response 200 ""
              (ok (upload_body (VStr "done") [("text", VStr "short"); ("summary", VNone)])))).
  intros text body metadata v Hpost Hmeta Hin.
  injection Hpost as _ <-. cbn in Hmeta. injection Hmeta as <-.
  destruct Hin as [Hin|[Hin|[]]]; [|discriminate Hin].
  injection Hin as <-. right. cbn. lia.
Defined.

(** ** The script *)

Lemma trace_then_pure {E A B} (m : eff E A) (b : B) :
  trace (_ <~ m ;; pure b) = trace m.
Proof.
  destruct m as [t [e|a]]; cbn; [reflexivity | apply app_nil_r].
Qed.

(** X20.  The script calls [requests.post] only when it has at least two
    arguments, the first is [invoice] or [contract] in any mix of capitals,
    and the file named by the second exists and opens; it then calls it
    exactly once, with the document type in small letters.  Arguments after
    the second are ignored. *)
Theorem main_request (str_other : value -> string) (os_path_exists : string -> bool)
    (open_rb : string -> result unit)
    (requests_post : string -> string -> post_outcome) (argv : list string) :
  filter is_post (trace (main str_other os_path_exists open_rb requests_post argv))
  = match argv with
    | _ :: document_type :: pdf_path :: _ =>
        if (String.eqb (lower document_type) "invoice"
            || String.eqb (lower document_type) "contract")
           && os_path_exists pdf_path
        then match open_rb pdf_path with
             | inl _ => []
             | inr _ => [Post url (lower document_type) pdf_path]
             end
        else []
    | _ => []
    end.
Proof.
  unfold main.
  destruct argv as [|prog [|document_type [|pdf_path rest]]]; try reflexivity.
  cbn [List.length Nat.ltb Nat.leb nth].
  destruct (String.eqb_spec (lower document_type) "invoice") as [Hi|Hni]; cbn [orb].
  - rewrite trace_then_pure, invoice_posts, Hi. now destruct (os_path_exists pdf_path).
  - destruct (String.eqb_spec (lower document_type) "contract") as [Hc|Hnc].
    + rewrite trace_then_pure, contract_posts, Hc. now destruct (os_path_exists pdf_path).
    + reflexivity.
Qed.

(** X21.  The script exits with status 1 in two cases only: with fewer than
    two arguments, after the three usage lines, and with a document type
    that is neither [invoice] nor [contract], after a line that quotes the
    type in small letters.  In both cases nothing else is printed and no
    upload function runs. *)
Theorem main_usage_errors (str_other : value -> string) (os_path_exists : string -> bool)
    (open_rb : string -> result unit)
    (requests_post : string -> string -> post_outcome) (argv : list string) :
  ((List.length argv < 3)%nat ->
   main str_other os_path_exists open_rb requests_post argv
   = ([Print "Usage:";
       Print "  python test_api.py invoice <path_to_invoice.pdf>";
       Print "  python test_api.py contract <path_to_contract.pdf>"],
      ok (Some 1)))
  /\ (forall prog document_type pdf_path rest,
        argv = prog :: document_type :: pdf_path :: rest ->
        lower document_type <> "invoice" ->
        lower document_type <> "contract" ->
        main str_other os_path_exists open_rb requests_post argv
        = ([Print ("Error: Unknown document type '" ++ lower document_type
                   ++ "'. Use 'invoice' or 'contract'")],
           ok (Some 1)))
  /\ (outcome (main str_other os_path_exists open_rb requests_post argv) = ok (Some 1)
      <-> (List.length argv < 3)%nat
          \/ exists prog document_type pdf_path rest,
               argv = prog :: document_type :: pdf_path :: rest
               /\ lower document_type <> "invoice"
               /\ lower document_type <> "contract").
Proof.
  unfold main, outcome. split; [|split].
  - intros Hlen. apply Nat.ltb_lt in Hlen. now rewrite Hlen.
  - intros prog document_type pdf_path rest -> Hni Hnc.
    cbn [List.length Nat.ltb Nat.leb nth].
    destruct (String.eqb_spec (lower document_type) "invoice"); [contradiction|].
    destruct (String.eqb_spec (lower document_type) "contract"); [contradiction|].
    reflexivity.
  - destruct (List.length argv <? 3)%nat eqn:Hlen.
    + split; [intros _; left; now apply Nat.ltb_lt | reflexivity].
    + apply Nat.ltb_ge in Hlen.
      destruct argv as [|prog [|document_type [|pdf_path rest]]]; try (cbn in Hlen; lia).
      cbn [nth].
      destruct (String.eqb_spec (lower document_type) "invoice") as [Hi|Hni].
      * split.
        -- destruct (test_upload_invoice _ _ _ _ _) as [t [e|u]]; cbn; discriminate.
        -- intros [Hlt | [p [d [q [r [Heq [Hne _]]]]]]].
           ++ cbn in Hlt; lia.
           ++ injection Heq as _ <- _ _. contradiction.
      * destruct (String.eqb_spec (lower document_type) "contract") as [Hc|Hnc].
        -- split.
           ++ destruct (test_upload_contract _ _ _ _ _) as [t [e|u]]; cbn; discriminate.
           ++ intros [Hlt | [p [d [q [r [Heq [_ Hne]]]]]]].
              ** cbn in Hlt; lia.
              ** injection Heq as _ <- _ _. contradiction.
        -- split; [|reflexivity]. intros _. right.
           now exists prog, document_type, pdf_path, rest.
Qed.

Lemma main_usage_errors_run :
  main angle_str (file_system ["a.pdf"]) readable (fun _ _ => Timeout)
    ["test_api.py"; "Receipt"; "a.pdf"]
  = ([Print "Error: Unknown document type 'receipt'. Use 'invoice' or 'contract'"],
     ok (Some 1)).
Proof.
  apply (proj1 (proj2 (main_usage_errors angle_str (file_system ["a.pdf"]) readable
                         (fun _ _ => Timeout) ["test_api.py"; "Receipt"; "a.pdf"]))
           "test_api.py" "Receipt" "a.pdf" [] eq_refl).
  - vm_compute. discriminate.
  - vm_compute. discriminate.
Defined.

(** In any mix of capitals the type is recognised; a missing file is
    reported and the script ends without calling [sys.exit]. *)
Example script_with_capitals :
  main angle_str (file_system []) readable (fun _ _ => ConnectionError)
    ["test_api.py"; "InVoice"; "missing.pdf"; "extra"]
  = ([Print "Error: File not found: missing.pdf"], ok None).
Proof. reflexivity. Qed.
